(** * estore-apis: the order workflow of routes/orders.js

    A shallow embedding of the order routes (list, get, create, update
    status, delete, count, total sales, orders of a user), of the mongoose
    operations they call, and of the bearer-credential gate of
    helpers/authJwt.js, followed by the properties of the specification.

    Conventions of the embedding.
    - A collection is a finite map from ObjectId to document.  ObjectIds are
      natural numbers handed out by a counter kept in the store, so an id is
      never generated twice.
    - A JavaScript [Number] is an IEEE 754 binary64 value, Rocq's primitive
      [float], with its own rounding addition and multiplication, its
      infinities and its NaN.  The integers the system itself produces
      (counts, version keys, timestamps) are kept in [Z].
    - [null] is [None] for a document and [JNull] inside a JSON value;
      truthiness ([!x]) is the function [truthy].
    - An exception ([CastError], [ValidationError], [TypeError]) is a value of
      [Exn]; every handler's [try { } catch (err) { }] turns it into the 500
      envelope.  Writes done before the exception stay in the store: the code
      has no rollback.
    - A promise the code does not await is a [Task] the handler hands back
      with its response; it runs later, as an event of its own.
    - The driver calls themselves always answer: a lost connection is not part
      of the model. *)

From Stdlib Require Import ZArith QArith String List Permutation.
From Stdlib Require Import PrimFloat SpecFloat FloatOps.
From stdpp Require Import base option list gmap fin_maps strings sorting.

Local Open Scope Z_scope.
Local Open Scope string_scope.

Abbreviation ObjectId := nat.

Set Warnings "-register-all".

(** ** JSON values and JavaScript truthiness *)

Inductive JSON :=
| JNull
| JBool (b : bool)
| JNum (z : Z)
| JDouble (f : float)
| JStr (s : string)
| JOid (i : ObjectId)
| JArr (l : list JSON)
| JObj (fs : list (string * JSON)).

(** [!v] is [negb (truthy v)]: null, false, 0 (also -0), NaN and the empty
    string are falsy, every array and every object (also the empty ones) is
    truthy. *)
Definition truthy (v : JSON) : bool :=
  match v with
  | JNull => false
  | JBool b => b
  | JNum z => negb (Z.eqb z 0)
  | JDouble f => negb (is_nan f || is_zero f)
  | JStr s => negb (String.eqb s "")
  | JOid _ => true
  | JArr _ => true
  | JObj _ => true
  end.

(** [undefined] is [None]. *)
Definition truthy_opt (v : option JSON) : bool :=
  match v with
  | None => false
  | Some v => truthy v
  end.

(** Property access [obj.k] on the fields of an object. *)
Fixpoint field (k : string) (fs : list (string * JSON)) : option JSON :=
  match fs with
  | [] => None
  | (k', v) :: fs' => if String.eqb k k' then Some v else field k fs'
  end.

Definition json_field (k : string) (v : JSON) : option JSON :=
  match v with
  | JObj fs => field k fs
  | _ => None
  end.

(** [JSON.stringify] of a Number: NaN and the infinities are written as
    null. *)
Definition jsonNumber (f : float) : JSON :=
  if is_finite f then JDouble f else JNull.

(** ** Documents *)

Module Category.
(** models/Category.js; the order routes read [name] only. *)
Record t := mk { name : string; color : string; icon : string }.
End Category.

Module Product.
(** models/Product.js, the fields the order routes read ([price] is a
    Number with a default of 0 in the schema, so a stored product always has
    one). *)
Record t := mk {
  name : string;
  description : string;
  price : float;
  category : ObjectId
}.
End Product.

Module User.
(** models/User.js, the fields the order routes and the login token read. *)
Record t := mk { name : string; isAdmin : bool }.
End User.

Module OrderItem.
(** models/OrderItem.js: [quantity] is a required Number, [product] an
    optional reference. *)
Record t := mk { quantity : float; product : option ObjectId }.
End OrderItem.

Module Order.
(** Modelled from the spec: models/Order.js is not among the sources.  The
    fields are the ones of the data model of the specification (section 3),
    under the names the POST handler gives them. *)
Record t := mk {
  orderItems : list ObjectId;
  shippingAddress1 : string;
  shippingAddress2 : string;
  city : string;
  zip : string;
  country : string;
  phone : string;
  status : string;
  totalPrice : float;
  user : ObjectId;
  dateOrdered : Z
}.

(** The update document [{ 'status': s }] applied to an order. *)
Definition set_status (s : string) (o : t) : t :=
  mk (orderItems o) (shippingAddress1 o) (shippingAddress2 o) (city o)
     (zip o) (country o) (phone o) s (totalPrice o) (user o) (dateOrdered o).
End Order.

(** ** The document store *)

Record Store := mkStore {
  db_orders : gmap nat Order.t;
  db_orderItems : gmap nat OrderItem.t;
  db_products : gmap nat Product.t;
  db_categories : gmap nat Category.t;
  db_users : gmap nat User.t;
  nextId : ObjectId
}.

Definition with_orders (f : gmap nat Order.t → gmap nat Order.t) (s : Store) : Store :=
  mkStore (f (db_orders s)) (db_orderItems s) (db_products s)
          (db_categories s) (db_users s) (nextId s).

Definition with_orderItems (f : gmap nat OrderItem.t → gmap nat OrderItem.t)
    (s : Store) : Store :=
  mkStore (db_orders s) (f (db_orderItems s)) (db_products s)
          (db_categories s) (db_users s) (nextId s).

Definition emptyStore : Store := mkStore ∅ ∅ ∅ ∅ ∅ 0%nat.

(** ** Exceptions and the store-passing monad *)

Inductive Exn := CastError | ValidationError | TypeError.

Inductive Result (A : Type) :=
| Ok (a : A)
| Throw (e : Exn).
Arguments Ok {A} a.
Arguments Throw {A} e.

(** A computation reads and writes the store and either returns or throws;
    the store it leaves is kept in both cases. *)
Definition M (A : Type) : Type := Store → Result A * Store.

#[global] Instance M_ret : MRet M := λ A a s, (Ok a, s).

#[global] Instance M_bind : MBind M :=
  λ A B k m s, match m s with
               | (Ok a, s') => k a s'
               | (Throw e, s') => (Throw e, s')
               end.

Definition throw {A} (e : Exn) : M A := λ s, (Throw e, s).

(** [await Promise.all(tasks)]: every task is started, in the order of the
    array, and runs whether or not another one rejects; the results come back
    in the order of the array; a rejection of any task rejects the whole.
    The store that comes back accounts for the writes of all the tasks; when
    the whole is rejected, those of the other tasks may land only after the
    rejection has been seen. *)
Fixpoint promiseAll {A} (tasks : list (M A)) : M (list A) :=
  λ s, match tasks with
       | [] => (Ok [], s)
       | t :: ts =>
           let '(r, s1) := t s in
           let '(rs, s2) := promiseAll ts s1 in
           (match r, rs with
            | Ok a, Ok l => Ok (a :: l)
            | Throw e, _ => Throw e
            | Ok _, Throw e => Throw e
            end, s2)
       end.

(** ** JSON representations of the documents *)

(** [toJSON] of an order as stored: references are bare ObjectIds. *)
Definition orderDoc (i : ObjectId) (o : Order.t) : list (string * JSON) :=
  [ ("orderItems", JArr (map JOid (Order.orderItems o)));
    ("shippingAddress1", JStr (Order.shippingAddress1 o));
    ("shippingAddress2", JStr (Order.shippingAddress2 o));
    ("city", JStr (Order.city o));
    ("zip", JStr (Order.zip o));
    ("country", JStr (Order.country o));
    ("phone", JStr (Order.phone o));
    ("status", JStr (Order.status o));
    ("totalPrice", jsonNumber (Order.totalPrice o));
    ("user", JOid (Order.user o));
    ("dateOrdered", JNum (Order.dateOrdered o));
    ("_id", JOid i);
    ("__v", JNum 0) ].

(** [.populate('user', 'name')]: the user's [_id] and [name], [null] when the
    user is gone. *)
Definition populateUser (s : Store) (u : ObjectId) : JSON :=
  match db_users s !! u with
  | Some usr => JObj [ ("_id", JOid u); ("name", JStr (User.name usr)) ]
  | None => JNull
  end.

(** [populate: { path: 'category', select: { '_id': 1, 'name': 1 } }] *)
Definition populateCategory (s : Store) (c : ObjectId) : JSON :=
  match db_categories s !! c with
  | Some cat => JObj [ ("_id", JOid c); ("name", JStr (Category.name cat)) ]
  | None => JNull
  end.

(** [populate: { path: 'product', select: { '_id': 1, 'name': 1,
    'description': 1 }, populate: category }] *)
Definition populateProduct (s : Store) (p : ObjectId) : JSON :=
  match db_products s !! p with
  | Some prod =>
      JObj [ ("_id", JOid p);
             ("name", JStr (Product.name prod));
             ("description", JStr (Product.description prod));
             ("category", populateCategory s (Product.category prod)) ]
  | None => JNull
  end.

(** One populated element of [orderItems]; an item without a product
    reference has no [product] property. *)
Definition populateOrderItem (s : Store) (id : ObjectId) : option JSON :=
  match db_orderItems s !! id with
  | Some it =>
      Some (JObj ([ ("_id", JOid id);
                    ("quantity", jsonNumber (OrderItem.quantity it)) ]
                  ++ match OrderItem.product it with
                     | Some p => [ ("product", populateProduct s p) ]
                     | None => []
                     end
                  ++ [ ("__v", JNum 0) ]))
  | None => None
  end.

(** [.populate({ path: 'orderItems', ... })]: the ids that resolve, in the
    order of the array; an id whose item is gone is left out. *)
Definition populateOrderItems (s : Store) (ids : list ObjectId) : list JSON :=
  omap (populateOrderItem s) ids.

(** The order with [user] and [orderItems] populated, as both read routes
    build it. *)
Definition populatedOrderDoc (s : Store) (i : ObjectId) (o : Order.t)
    : list (string * JSON) :=
  [ ("orderItems", JArr (populateOrderItems s (Order.orderItems o)));
    ("shippingAddress1", JStr (Order.shippingAddress1 o));
    ("shippingAddress2", JStr (Order.shippingAddress2 o));
    ("city", JStr (Order.city o));
    ("zip", JStr (Order.zip o));
    ("country", JStr (Order.country o));
    ("phone", JStr (Order.phone o));
    ("status", JStr (Order.status o));
    ("totalPrice", jsonNumber (Order.totalPrice o));
    ("user", populateUser s (Order.user o));
    ("dateOrdered", JNum (Order.dateOrdered o));
    ("_id", JOid i);
    ("__v", JNum 0) ].

(** [.select('-a -b ...')]: the listed properties are removed. *)
Definition selectExclude (ks : list string) (fs : list (string * JSON))
    : list (string * JSON) :=
  filter (λ kv, kv.1 ∉ ks) fs.

Definition addressFields : list string :=
  [ "shippingAddress1"; "shippingAddress2"; "city"; "zip"; "country" ].

(** ** The response envelope *)

Inductive ErrorValue :=
| ErrMsg (m : string)
| ErrThrown (e : Exn).

Module Res.
(** [res.status(code).json({success, message, error, data})] *)
Record t := mk {
  status : nat;
  success : bool;
  message : option string;
  error : option ErrorValue;
  data : JSON
}.
End Res.

Definition succeed (code : nat) (msg : string) (d : JSON) : Res.t :=
  Res.mk code true (Some msg) None d.

Definition fail (code : nat) (msg : string) : Res.t :=
  Res.mk code false None (Some (ErrMsg msg)) JNull.

(** The [catch (err)] branch shared by all the handlers. *)
Definition caught (e : Exn) : Res.t :=
  Res.mk 500 false None (Some (ErrThrown e)) JNull.

(** ** Route parameters *)

(** [req.params.id]: mongoose casts the string to an ObjectId before it
    queries, and throws a CastError when the string is not one. *)
Inductive IdParam :=
| IdOk (i : ObjectId)
| IdMalformed.

Definition castObjectId (p : IdParam) : M ObjectId :=
  match p with
  | IdOk i => mret i
  | IdMalformed => throw CastError
  end.

Definition getStore : M Store := λ s, (Ok s, s).

(** [try { body } catch (err) { handler }] *)
Definition tryCatch {A} (body : M A) (handler : Exn → A) : Store → A * Store :=
  λ s, match body s with
       | (Ok r, s') => (r, s')
       | (Throw e, s') => (handler e, s')
       end.

(** ** The mongoose calls of the order routes *)

(** [new Model({...})] gives the document its [_id] at construction. *)
Definition newObjectId : M ObjectId :=
  λ s, (Ok (nextId s),
        mkStore (db_orders s) (db_orderItems s) (db_products s)
                (db_categories s) (db_users s) (S (nextId s))).

Definition insertOrderItem (id : ObjectId) (it : OrderItem.t) : M unit :=
  λ s, (Ok (), with_orderItems <[ id := it ]> s).

Definition insertOrder (id : ObjectId) (o : Order.t) : M unit :=
  λ s, (Ok (), with_orders <[ id := o ]> s).

(** [Order.findByIdAndRemove(id)]: the removed document, or null. *)
Definition findOrderByIdAndRemove (id : ObjectId) : M (option Order.t) :=
  λ s, (Ok (db_orders s !! id), with_orders (delete id) s).

(** [Order.findByIdAndUpdate(id, { 'status': st }, {new: true})]: the
    document after the update, or null; no other property is set. *)
Definition findOrderByIdAndUpdateStatus (id : ObjectId) (st : string)
    : M (option Order.t) :=
  λ s, match db_orders s !! id with
       | Some o =>
           let o' := Order.set_status st o in
           (Ok (Some o'), with_orders <[ id := o' ]> s)
       | None => (Ok None, s)
       end.

(** [Order.countDocuments()] *)
Definition countOrders : M Z :=
  s ← getStore; mret (Z.of_nat (size (db_orders s))).

(** [Order.find({'user': uid})], documents in the order of the collection. *)
Definition findOrdersByUser (uid : ObjectId) : M (list (ObjectId * Order.t)) :=
  s ← getStore;
  mret (filter (λ d, Order.user d.2 = uid) (map_to_list (db_orders s))).

(** [Order.aggregate([{$group: {_id: 0, totalsales: {$sum: '$totalPrice'}}}])]:
    one group per value of the grouping key among the documents, so one row
    when there is a document and none when the collection is empty.  The sum
    is the server's: [sum] is what its [$sum] accumulator gives for the
    totals of the collection, whatever its algorithm and the order in which
    it takes them. *)
Definition aggregateTotalSales (sum : list float → float) : M (list JSON) :=
  s ← getStore;
  let docs := map_to_list (db_orders s) in
  mret (match docs with
        | [] => []
        | _ :: _ =>
            [ JObj [ ("_id", JNum 0);
                     ("totalsales",
                      jsonNumber (sum (map (λ d, Order.totalPrice d.2) docs))) ] ]
        end).

(** [.sort({'dateOrdered': -1})] *)
Definition newerFirst (a b : ObjectId * Order.t) : Prop :=
  (Order.dateOrdered b.2 ≤ Order.dateOrdered a.2)%Z.

#[global] Instance newerFirst_dec : RelDecision newerFirst.
Proof. intros a b. unfold newerFirst. apply Z.le_dec. Defined.

(** ** GET /orders *)

Definition getOrders : Store → Res.t * Store :=
  tryCatch
    (s ← getStore;
     let allOrders :=
       map (λ d, JObj (selectExclude addressFields (populatedOrderDoc s d.1 d.2)))
           (merge_sort newerFirst (map_to_list (db_orders s))) in
     if negb (truthy (JArr allOrders))
     then mret (fail 500 "Unable to get orders")
     else mret (succeed 200
                  (if (length allOrders =? 0)%nat then "No orders" else "Orders found")
                  (JArr allOrders)))
    caught.

(** ** GET /orders/:id *)

Definition getOrder (id : IdParam) : Store → Res.t * Store :=
  tryCatch
    (i ← castObjectId id;
     s ← getStore;
     match db_orders s !! i with
     | None => mret (fail 500 "Unable to get order with this id")
     | Some order =>
         mret (succeed 200 "Order with this id has been found"
                 (JObj (populatedOrderDoc s i order)))
     end)
    caught.

(** ** POST /orders *)

(** A value that casts to a Number of a schema: the cast rejects NaN. *)
Record Number := mkNumber { num_val : float; num_ok : is_nan num_val = false }.

Module Line.
(** An element of [req.body.orderItems].  [quantity] is the property after
    the cast to Number, [None] when it is missing or the cast fails.
    [product] is [None] when the property is missing, and else the string
    given, which is an ObjectId or fails the cast to one. *)
Record t := mk { quantity : option Number; product : option IdParam }.
End Line.

Module Body.
(** [req.body] of the POST route.  [orderItems] is [None] when the body has
    no such array.  [totalPrice] is what the caller may put in the body under
    that name; the handler never reads it. *)
Record t := mk {
  orderItems : option (list Line.t);
  shippingAddress1 : string;
  shippingAddress2 : string;
  city : string;
  zip : string;
  country : string;
  phone : string;
  status : string;
  user : IdParam;
  totalPrice : option float
}.
End Body.

(** The cast of the [product] of a line: a missing property is stored as no
    reference, a string that is not an ObjectId is a validation error. *)
Definition castProduct (p : option IdParam) : option (option ObjectId) :=
  match p with
  | None => Some None
  | Some (IdOk i) => Some (Some i)
  | Some IdMalformed => None
  end.

(** The callback of the first [map]: build the OrderItem, save it, return its
    id.  [save()] validates first: without a quantity, or with a product that
    is not an ObjectId, nothing is written. *)
Definition saveOrderItem (orderItem : Line.t) : M ObjectId :=
  id ← newObjectId;
  match Line.quantity orderItem, castProduct (Line.product orderItem) with
  | Some q, Some p =>
      _ ← insertOrderItem id (OrderItem.mk (num_val q) p);
      mret id
  | _, _ => throw ValidationError
  end.

(** The line item materializer: [Promise.all(req.body.orderItems.map(...))]. *)
Definition materialize (orderItems : list Line.t) : M (list ObjectId) :=
  promiseAll (map saveOrderItem orderItems).

(** [OrderItem.findById(id).populate('product', 'price')], then
    [item.product.price]: the price of the product the item points to, if the
    item has a product reference and the product exists. *)
Definition populatedPrice (s : Store) (item : OrderItem.t) : option float :=
  p ← OrderItem.product item;
  prod ← db_products s !! p;
  Some (Product.price prod).

(** The callback of the second [map]: [item.quantity * item.product.price],
    a multiplication of doubles.  [None] is the [undefined] the callback
    returns when the item is not found; reading [.price] of a product that is
    null or undefined throws. *)
Definition subtotalOf (id : ObjectId) : M (option float) :=
  s ← getStore;
  match db_orderItems s !! id with
  | Some item =>
      match populatedPrice s item with
      | Some price => mret (Some (OrderItem.quantity item * price)%float)
      | None => throw TypeError
      end
  | None => mret None
  end.

(** The step of [reduce((a,b) => a + b, 0)]: an addition of doubles; a number
    plus [undefined] is NaN. *)
Definition js_add (a : float) (b : option float) : float :=
  match b with
  | Some y => (a + y)%float
  | None => nan
  end.

(** [new Order({...})] and [order.save()]: [totalPrice] is a Number of the
    schema, which NaN fails to cast to, and [user] a reference, which a
    string that is not an ObjectId fails to cast to; the order gets its id in
    any case. *)
Definition saveOrder (now : Z) (body : Body.t) (orderItemsIds : list ObjectId)
    (totalPrice : float) : M (ObjectId * Order.t) :=
  id ← newObjectId;
  match Body.user body with
  | IdMalformed => throw ValidationError
  | IdOk user =>
      if is_nan totalPrice then throw ValidationError
      else
        let order :=
          Order.mk orderItemsIds (Body.shippingAddress1 body)
                   (Body.shippingAddress2 body) (Body.city body) (Body.zip body)
                   (Body.country body) (Body.phone body) (Body.status body)
                   totalPrice user now in
        _ ← insertOrder id order;
        mret (id, order)
  end.

(** [now] is the value of [Date.now] the schema's default gives
    [dateOrdered].  Without [orderItems] in the body, [.map] is read of
    [undefined] and throws. *)
Definition postOrder (now : Z) (body : Body.t) : Store → Res.t * Store :=
  tryCatch
    (match Body.orderItems body with
     | None => throw TypeError
     | Some orderItems =>
         orderItemsIds ← materialize orderItems;
         subtotals ← promiseAll (map subtotalOf orderItemsIds);
         let totalPrice := fold_left js_add subtotals 0%float in
         savedOrder ← saveOrder now body orderItemsIds totalPrice;
         let doc := JObj (orderDoc savedOrder.1 savedOrder.2) in
         if negb (truthy doc)
         then mret (fail 400 "Unable to post this order")
         else mret (succeed 201 "This order has been posted" doc)
     end)
    caught.

(** ** PUT /orders/:id *)

Definition putOrder (id : IdParam) (status : string) : Store → Res.t * Store :=
  tryCatch
    (i ← castObjectId id;
     order ← findOrderByIdAndUpdateStatus i status;
     match order with
     | None => mret (fail 400 "Unable to update status for this order")
     | Some o =>
         mret (succeed 200 "The status for this order has been updated"
                 (JObj (orderDoc i o)))
     end)
    caught.

(** ** DELETE /orders/:id *)

(** The promise an un-awaited [async (id) => { await
    OrderItem.findByIdAndRemove(id); }] leaves running. *)
Inductive Task :=
| RemoveOrderItem (id : ObjectId).

Definition runTask (s : Store) (t : Task) : Store :=
  match t with
  | RemoveOrderItem id => with_orderItems (delete id) s
  end.

(** The store once the given tasks have run, in the order of the list. *)
Definition settle (ts : list Task) (s : Store) : Store :=
  fold_left runTask ts s.

(** The handler answers without awaiting the removals of the line items: it
    returns its response together with the tasks it has started. *)
Definition deleteOrder (id : IdParam) : Store → (Res.t * list Task) * Store :=
  tryCatch
    (i ← castObjectId id;
     order ← findOrderByIdAndRemove i;
     match order with
     | None => mret (fail 404 "Unable to find and delete this order", [])
     | Some o =>
         mret (succeed 200 "This order has been deleted" (JObj (orderDoc i o)),
               map RemoveOrderItem (Order.orderItems o))
     end)
    (λ err, (caught err, [])).

(** ** GET /orders/get/count *)

Definition getCount : Store → Res.t * Store :=
  tryCatch
    (count ← countOrders;
     if negb (truthy (JNum count))
     then mret (fail 500 "Unable to get count of orders")
     else mret (succeed 200 "Count of orders has been generated"
                  (JObj [ ("count", JNum count) ])))
    caught.

(** ** GET /orders/get/totalsales *)

(** [totalsales.pop().totalsales]: [pop()] of an empty array is [undefined],
    whose property cannot be read. *)
Definition getTotalSales (sum : list float → float) : Store → Res.t * Store :=
  tryCatch
    (totalsales ← aggregateTotalSales sum;
     if negb (truthy (JArr totalsales))
     then mret (fail 500 "Unable to get totalsales of orders")
     else
       match last totalsales with
       | None => throw TypeError
       | Some row =>
           mret (succeed 200 "The totalsales of orders has been generated"
                   (JObj match json_field "totalsales" row with
                         | Some v => [ ("totalsales", v) ]
                         | None => []
                         end))
       end)
    caught.

(** ** GET /orders/get/orders/:userid *)

Definition getUserOrders (userid : IdParam) : Store → Res.t * Store :=
  tryCatch
    (uid ← castObjectId userid;
     found ← findOrdersByUser uid;
     let orders := JArr (map (λ d, JObj (orderDoc d.1 d.2)) found) in
     if negb (truthy orders)
     then mret (fail 400 "Unable to get orders for this user")
     else mret (succeed 200 "Orders found for this user" orders))
    caught.

(** ** helpers/authJwt.js: the credential gate *)

(** [isRevoked(req, token)]: [true] when [token.payload.userIsAdmin] is falsy;
    otherwise the function ends without a return, which is [undefined]. *)
Definition isRevoked (payload : list (string * JSON)) : option JSON :=
  if negb (truthy_opt (field "userIsAdmin" payload))
  then Some (JBool true)
  else None.

(** The payload [jwt.sign] is given at login. *)
Definition loginPayload (userId : ObjectId) (u : User.t) : list (string * JSON) :=
  [ ("userId", JOid userId); ("userIsAdmin", JBool (User.isAdmin u)) ].

Inductive Method := GET | POST | PUT | DELETE | OPTIONS.

(** What the request carries in its Authorization header: nothing, a token
    that fails verification (signature, algorithm, expiry), or a token that
    verifies, with its decoded payload. *)
Inductive Credential :=
| NoCredential
| InvalidToken
| Verified (payload : list (string * JSON)).

(** The middleware either calls [next()] or raises an UnauthorizedError with
    the given code. *)
Inductive Gate :=
| Next
| UnauthorizedError (code : string).

(** The regular expressions of the exclusion list are a literal followed by
    a group that matches anything, and are not anchored: they match the
    strings that contain the literal. *)
Fixpoint contains (lit s : string) : bool :=
  String.prefix lit s
  || match s with
     | EmptyString => false
     | String _ s' => contains lit s'
     end.

Definition getOrOptions (m : Method) : bool :=
  match m with
  | GET | OPTIONS => true
  | _ => false
  end.

Section AuthJwt.
(** [process.env.API_VERSION] *)
Variable API_VERSION : string.

(** The [unless({ path: [...] })] list: a string is compared with the
    pathname, an object tests its [url] and its [methods]. *)
Definition unlessPath (m : Method) (pathname : string) : bool :=
  String.eqb pathname (API_VERSION +:+ "/users/login")
  || String.eqb pathname (API_VERSION +:+ "/users/register")
  || (contains "/api/v1/products" pathname && getOrOptions m)
  || (contains "/api/v1/categories" pathname && getOrOptions m)
  || (contains "/public/uploads" pathname && getOrOptions m).

(** [jwt({secret, algorithms, isRevoked}).unless(...)]: an excluded request
    passes; any other needs a token that verifies and that [isRevoked] does
    not answer with a truthy value. *)
Definition authJwt (m : Method) (pathname : string) (c : Credential) : Gate :=
  if unlessPath m pathname then Next
  else match c with
       | NoCredential => UnauthorizedError "credentials_required"
       | InvalidToken => UnauthorizedError "invalid_token"
       | Verified payload =>
           if truthy_opt (isRevoked payload)
           then UnauthorizedError "revoked_token"
           else Next
       end.
End AuthJwt.

(** ** The order routes as a whole *)

Inductive Request :=
| ListOrders
| GetOrder (id : IdParam)
| PostOrder (now : Z) (body : Body.t)
| PutOrder (id : IdParam) (status : string)
| DeleteOrder (id : IdParam)
| GetCount
| GetTotalSales (sum : list float → float)
| GetUserOrders (userid : IdParam).

(** A handler that awaits all it starts hands back no task. *)
Definition answered (h : Store → Res.t * Store)
    : Store → (Res.t * list Task) * Store :=
  λ s, (((h s).1, []), (h s).2).

(** The router of routes/orders.js: the response of the handler, the tasks
    it has started and not awaited, and the store it leaves. *)
Definition route (r : Request) : Store → (Res.t * list Task) * Store :=
  match r with
  | ListOrders => answered getOrders
  | GetOrder id => answered (getOrder id)
  | PostOrder now body => answered (postOrder now body)
  | PutOrder id status => answered (putOrder id status)
  | DeleteOrder id => deleteOrder id
  | GetCount => answered getCount
  | GetTotalSales sum => answered (getTotalSales sum)
  | GetUserOrders userid => answered (getUserOrders userid)
  end.

(** What happens over time: a request to an order route; the completion of
    one of the tasks that are pending, the [k]-th; or the category, product
    and user routes at work.  Those routes write their own three collections
    only (any change of them is allowed here, a change of price in
    particular) and may draw ObjectIds. *)
Inductive Event :=
| OrderRoute (r : Request)
| TaskEnds (k : nat)
| OtherRoutes (products : gmap nat Product.t) (categories : gmap nat Category.t)
              (users : gmap nat User.t) (drawn : nat).

(** The store together with the tasks that are pending. *)
Definition step (w : Store * list Task) (e : Event) : Store * list Task :=
  match e with
  | OrderRoute r => ((route r w.1).2, (w.2 ++ (route r w.1).1.2)%list)
  | TaskEnds k =>
      match w.2 !! k with
      | Some t => (runTask w.1 t, delete k w.2)
      | None => w
      end
  | OtherRoutes ps cs us n =>
      (mkStore (db_orders w.1) (db_orderItems w.1) ps cs us (nextId w.1 + n), w.2)
  end.

Definition runFrom (es : list Event) (w : Store * list Task) : Store * list Task :=
  fold_left step es w.

(** The store after the events, from a store with nothing pending. *)
Definition run (es : list Event) (s : Store) : Store := (runFrom es (s, [])).1.

(** ** helpers/errorHandler.js and the middleware chain of app.js *)

(** The [error] property of what the error handler sends: a text, or the
    error object itself. *)
Inductive ErrorBody :=
| ErrorText (m : string)
| ErrorObject (name : string).

(** [errorHandler(err, req, res, next)], where [name] is [err.name]: the
    status and the [error] property of the JSON it sends ([success] is false
    in the three cases, and there is no [data]). *)
Definition errorHandler (name : string) : nat * ErrorBody :=
  if String.eqb name "UnauthorizedError"
  then (401%nat, ErrorText "User not Authorized")
  else if String.eqb name "ValidationError"
  then (401%nat, ErrorText "Validation Error")
  else (500%nat, ErrorObject name).

(** What the application sends back: the empty 204 with which [cors()] ends
    a request, the JSON of the error handler, or the response of a route. *)
Inductive Reply :=
| Preflight (status : nat)
| Refused (status : nat) (error : ErrorBody)
| Routed (res : Res.t).

(** The middleware chain of app.js, in its order: [cors()] ends every
    OPTIONS request with the 204 of its defaults; [express.json()] parses
    the body, and an error it raises ([bodyError] is its name, [None] when
    the body parses or there is none) goes to the error handler; [authJwt()]
    is the gate, whose UnauthorizedError goes to the error handler;
    otherwise the order route [r] that the method and the pathname select
    handles the request. *)
Definition app (api : string) (m : Method) (pathname : string)
    (bodyError : option string) (c : Credential) (r : Request) (s : Store)
    : (Reply * list Task) * Store :=
  match m with
  | OPTIONS => ((Preflight 204, []), s)
  | _ =>
      match bodyError with
      | Some name =>
          ((Refused (errorHandler name).1 (errorHandler name).2, []), s)
      | None =>
          match authJwt api m pathname c with
          | Next => ((Routed (route r s).1.1, (route r s).1.2), (route r s).2)
          | UnauthorizedError _ =>
              ((Refused (errorHandler "UnauthorizedError").1
                        (errorHandler "UnauthorizedError").2, []), s)
          end
      end
  end.

(** ** Auxiliary definitions of the statements *)

(** Not the handler alone: the response of the DELETE handler paired with
    the store reached later, once the removals it started have all run.  The
    handler itself, and the store at the moment it answers, is
    [deleteOrder]. *)
Definition deleteOrderSettled (id : IdParam) (s : Store) : Res.t * Store :=
  let '((res, tasks), s') := deleteOrder id s in (res, settle tasks s').

(** The number a double stands for, as a rational; 0 for NaN and the
    infinities, which stand for none. *)
Definition exactQ (f : float) : Q :=
  match Prim2SF f with
  | S754_finite sign m e => (if sign then -1 else 1) * (Zpos m # 1) * Qpower 2 e
  | _ => 0
  end%Q.

(** The sum of the totals of the stored orders, in exact arithmetic. *)
Definition salesOf (s : Store) : Q :=
  foldr Qplus 0%Q
        (map (λ d, exactQ (Order.totalPrice d.2)) (map_to_list (db_orders s))).

(** The collections that creating line items does not write. *)
Definition sameCatalogue (s s' : Store) : Prop :=
  db_orders s' = db_orders s
  ∧ db_products s' = db_products s
  ∧ db_categories s' = db_categories s
  ∧ db_users s' = db_users s.

(** The price a product has in a given store. *)
Definition priceOf (s : Store) (p : ObjectId) : float :=
  match db_products s !! p with
  | Some prod => Product.price prod
  | None => 0%float
  end.

(** The line of a request for a quantity of a product. *)
Definition lineOf (l : Number * ObjectId) : Line.t :=
  Line.mk (Some l.1) (Some (IdOk l.2)).

(** The total of lines as doubles give it: every product quantity times
    price is rounded, and the products are added to 0 one after the other,
    in the order of the lines, every sum rounded. *)
Definition doubleTotal (s : Store) (lines : list (Number * ObjectId)) : float :=
  fold_left (λ a l, a + num_val l.1 * priceOf s l.2)%float lines 0%float.




(** Every id in the order and line item collections has been issued by the
    counter. *)
Definition idsIssued (s : Store) : Prop :=
  (∀ j, is_Some (db_orders s !! j) → (j < nextId s)%nat)
  ∧ (∀ j, is_Some (db_orderItems s !! j) → (j < nextId s)%nat).

(** A line that passes the validation of [save()]: it has a quantity, and
    its product, if it has one, is an ObjectId. *)
Definition lineSaves (it : Line.t) : bool :=
  match Line.quantity it, castProduct (Line.product it) with
  | Some _, Some _ => true
  | _, _ => false
  end.

(** A line the POST route can price: it has a quantity and a reference to a
    product of the store. *)
Definition lineValid (s : Store) (it : Line.t) : bool :=
  match Line.quantity it, Line.product it with
  | Some _, Some (IdOk p) => bool_decide (is_Some (db_products s !! p))
  | _, _ => false
  end.

(** The routes that only read. *)
Definition readOnly (r : Request) : bool :=
  match r with
  | ListOrders | GetOrder _ | GetCount | GetTotalSales _ | GetUserOrders _ => true
  | PostOrder _ _ | PutOrder _ _ | DeleteOrder _ => false
  end.

(** ** Stores and requests to run the routes on

    Two products (prices 10 and 5) of one category, one user, and one order
    of that user for 3 of the first product and 2 of the second. *)

Definition demoOrder : Order.t :=
  Order.mk [4; 5]%nat "Flowers Street , 45" "1-B" "Prague" "00000"
           "Czech Republic" "+420702241333" "Pending" 40%float 3%nat 1000.

Definition demoStore : Store :=
  mkStore
    {[ 6%nat := demoOrder ]}
    {[ 4%nat := OrderItem.mk 3%float (Some 1%nat);
       5%nat := OrderItem.mk 2%float (Some 2%nat) ]}
    {[ 1%nat := Product.mk "Product 1" "Product 1 Description" 10%float 0%nat;
       2%nat := Product.mk "Product 2" "Product 2 Description" 5%float 0%nat ]}
    {[ 0%nat := Category.mk "Category 10" "#fff" "icon" ]}
    {[ 3%nat := User.mk "user 1" false ]}
    7%nat.

Definition qty3 : Number := mkNumber 3%float eq_refl.
Definition qty2 : Number := mkNumber 2%float eq_refl.

(** The lines of the scenario: 3 of product 1 and 2 of product 2. *)
Definition demoLines : list (Number * ObjectId) := [ (qty3, 1%nat); (qty2, 2%nat) ].

(** The request of the scenario, with a total of the caller's own in the
    body. *)
Definition demoBody : Body.t :=
  Body.mk (Some (map lineOf demoLines))
          "Flowers Street , 45" "1-B" "Prague" "00000" "Czech Republic"
          "+420702241333" "Pending" (IdOk 3%nat) (Some 1%float).

(** A store in which the order of [demoStore] outlives one of its products,
    one of its line items and its user. *)
Definition danglingStore : Store :=
  mkStore (db_orders demoStore) (delete 5%nat (db_orderItems demoStore))
          (delete 1%nat (db_products demoStore)) (db_categories demoStore)
          ∅ (nextId demoStore).

(** A body whose second line refers to a product that is not in
    [demoStore]. *)
Definition demoBadBody : Body.t :=
  Body.mk (Some [ lineOf (qty3, 1%nat); lineOf (qty2, 9%nat) ])
          "Flowers Street , 45" "1-B" "Prague" "00000" "Czech Republic"
          "+420702241333" "Pending" (IdOk 3%nat) None.





(** * Properties *)

(** ** The credential gate *)

Lemma isRevoked_falsy payload :
  truthy_opt (field "userIsAdmin" payload) = false →
  isRevoked payload = Some (JBool true).
Proof. unfold isRevoked. by intros ->. Qed.

Lemma isRevoked_truthy payload :
  truthy_opt (field "userIsAdmin" payload) = true →
  isRevoked payload = None.
Proof. unfold isRevoked. by intros ->. Qed.

Lemma authJwt_verified api m path payload :
  unlessPath api m path = false →
  authJwt api m path (Verified payload) = Next
  ↔ truthy_opt (field "userIsAdmin" payload) = true.
Proof.
  intros Hex. unfold authJwt, isRevoked. rewrite Hex.
  destruct (truthy_opt (field "userIsAdmin" payload)); simpl; split; congruence.
Qed.

(** A token issued at login is revoked exactly when the user is not an
    admin. *)
Lemma isRevoked_login userId u :
  truthy_opt (isRevoked (loginPayload userId u)) = negb (User.isAdmin u).
Proof. by destruct u as [n []]. Qed.

(** With [API_VERSION] set to /api/v1, as the exclusion list itself assumes,
    none of the order routes is excluded. *)
Example order_routes_not_excluded :
  unlessPath "/api/v1" GET "/api/v1/orders" = false
  ∧ unlessPath "/api/v1" GET "/api/v1/orders/63d1aa207f128e73e0d6b629" = false
  ∧ unlessPath "/api/v1" POST "/api/v1/orders" = false
  ∧ unlessPath "/api/v1" PUT "/api/v1/orders/63d1aa207f128e73e0d6b629" = false
  ∧ unlessPath "/api/v1" DELETE "/api/v1/orders/63d1aa207f128e73e0d6b629" = false
  ∧ unlessPath "/api/v1" GET "/api/v1/orders/get/count" = false
  ∧ unlessPath "/api/v1" GET "/api/v1/orders/get/totalsales" = false
  ∧ unlessPath "/api/v1" GET "/api/v1/orders/get/orders/63d1a89f5938f95a0677c1ef"
    = false.
Proof. repeat split; reflexivity. Qed.

Example product_list_excluded :
  unlessPath "/api/v1" GET "/api/v1/products/featured" = true
  ∧ unlessPath "/api/v1" POST "/api/v1/products" = false
  ∧ unlessPath "/api/v1" POST "/api/v1/users/login" = true.
Proof. repeat split; reflexivity. Qed.

(** C8: a credential whose payload has a falsy [userIsAdmin] (false, absent,
    null, 0 or the empty string) is reported revoked, one whose flag is truthy
    is not; so on a route that [unless] does not exclude, as the order routes
    are, the gate lets a request pass exactly when it carries a verified
    token whose admin flag is set. *)
Theorem isRevoked_non_admin (api : string) (m : Method) (path : string) :
  unlessPath api m path = false →
  (∀ payload,
     truthy_opt (field "userIsAdmin" payload) = false →
     truthy_opt (isRevoked payload) = true
     ∧ authJwt api m path (Verified payload) = UnauthorizedError "revoked_token")
  ∧ (∀ payload,
     truthy_opt (field "userIsAdmin" payload) = true →
     truthy_opt (isRevoked payload) = false
     ∧ authJwt api m path (Verified payload) = Next)
  ∧ (∀ c, authJwt api m path c = Next →
     ∃ payload, c = Verified payload
                ∧ truthy_opt (field "userIsAdmin" payload) = true).
Proof.
  intros Hex. split; [|split].
  - intros payload Hf. unfold authJwt. rewrite Hex, (isRevoked_falsy _ Hf). done.
  - intros payload Ht. unfold authJwt. rewrite Hex, (isRevoked_truthy _ Ht). done.
  - intros [| |payload] Hn.
    + unfold authJwt in Hn. rewrite Hex in Hn. discriminate.
    + unfold authJwt in Hn. rewrite Hex in Hn. discriminate.
    + exists payload. split; [done|]. by apply (authJwt_verified api m path).
Qed.

(** The order routes under the usual configuration are not excluded, and a
    token issued at login to a user who is not an admin is turned away. *)
Lemma isRevoked_non_admin_witness :
  unlessPath "/api/v1" POST "/api/v1/orders" = false
  ∧ authJwt "/api/v1" POST "/api/v1/orders"
      (Verified (loginPayload 7 (User.mk "user 1" false)))
    = UnauthorizedError "revoked_token"
  ∧ authJwt "/api/v1" POST "/api/v1/orders"
      (Verified (loginPayload 8 (User.mk "admin" true)))
    = Next.
Proof.
  assert (Hex : unlessPath "/api/v1" POST "/api/v1/orders" = false)
    by reflexivity.
  destruct (isRevoked_non_admin "/api/v1" POST "/api/v1/orders" Hex)
    as (Hrev & Hadm & _).
  split; [exact Hex|]. split.
  - apply (Hrev (loginPayload 7 (User.mk "user 1" false))). reflexivity.
  - apply (Hadm (loginPayload 8 (User.mk "admin" true))). reflexivity.
Defined.

(** ** Stores *)

Lemma with_orders_delete_absent i s :
  db_orders s !! i = None → with_orders (delete i) s = s.
Proof.
  intros Hi. destruct s as [os its ps cs us n]. unfold with_orders. simpl in *.
  by rewrite (delete_id _ _ Hi).
Qed.

Lemma size_orders_0 s : size (db_orders s) = 0%nat ↔ db_orders s = ∅.
Proof. apply map_size_empty_iff. Qed.

(** ** GET /orders/get/count *)

Lemma getCount_unfold s :
  getCount s =
  (if (size (db_orders s) =? 0)%nat
   then fail 500 "Unable to get count of orders"
   else succeed 200 "Count of orders has been generated"
          (JObj [ ("count", JNum (Z.of_nat (size (db_orders s)))) ]), s).
Proof.
  unfold getCount, tryCatch, countOrders, getStore, mbind, M_bind, mret, M_ret, truthy.
  destruct (size (db_orders s)) as [|n] eqn:Hn; reflexivity.
Qed.

(** With at least one order, the count route answers 200 with the number of
    orders. *)
Lemma getCount_some_orders s :
  db_orders s ≠ ∅ →
  getCount s = (succeed 200 "Count of orders has been generated"
                  (JObj [ ("count", JNum (Z.of_nat (size (db_orders s)))) ]), s).
Proof.
  intros Hne. rewrite getCount_unfold.
  destruct (size (db_orders s)) as [|n] eqn:Hn; [|done].
  by apply size_orders_0 in Hn.
Qed.

Lemma getCount_no_orders s :
  db_orders s = ∅ →
  getCount s = (fail 500 "Unable to get count of orders", s).
Proof.
  intros He. rewrite getCount_unfold, He, map_size_empty. done.
Qed.

(** C7: on the store without orders the driver answers 0, [!count] holds,
    and the route answers 500 with 'Unable to get count of orders'. *)
Theorem getCount_empty_store :
  getCount emptyStore = (fail 500 "Unable to get count of orders", emptyStore)
  ∧ Res.status (getCount emptyStore).1 = 500%nat
  ∧ Res.success (getCount emptyStore).1 = false.
Proof. rewrite (getCount_no_orders emptyStore); done. Qed.

(** ** GET /orders/get/totalsales *)

(** With at least one order, the route answers 200 with what the server's
    accumulator gives for the totals. *)
Lemma getTotalSales_some_orders sum s :
  db_orders s ≠ ∅ →
  getTotalSales sum s
  = (succeed 200 "The totalsales of orders has been generated"
       (JObj [ ("totalsales",
                jsonNumber (sum (map (λ d, Order.totalPrice d.2)
                                   (map_to_list (db_orders s))))) ]), s).
Proof.
  intros Hne. unfold getTotalSales, tryCatch, aggregateTotalSales, getStore.
  unfold mbind, M_bind, mret, M_ret.
  destruct (map_to_list (db_orders s)) as [|d ds] eqn:Hl; [|done].
  by apply map_to_list_empty_iff in Hl.
Qed.

Lemma getTotalSales_no_orders sum s :
  db_orders s = ∅ → getTotalSales sum s = (caught TypeError, s).
Proof.
  intros He. unfold getTotalSales, tryCatch, aggregateTotalSales, getStore.
  unfold mbind, M_bind, mret, M_ret. rewrite He, map_to_list_empty. done.
Qed.

(** C2: on the store without orders the aggregation has no row, whatever
    the accumulator of the server, [pop()] is undefined, reading its
    [totalsales] throws, and the route answers 500 with the TypeError and no
    data. *)
Theorem getTotalSales_empty_store (sum : list float → float) :
  getTotalSales sum emptyStore = (caught TypeError, emptyStore)
  ∧ Res.status (getTotalSales sum emptyStore).1 = 500%nat
  ∧ Res.success (getTotalSales sum emptyStore).1 = false
  ∧ Res.data (getTotalSales sum emptyStore).1 = JNull.
Proof. rewrite (getTotalSales_no_orders sum emptyStore); done. Qed.

(** ** GET /orders/get/orders/:userid *)

Lemma getUserOrders_unfold uid s :
  getUserOrders (IdOk uid) s =
  (succeed 200 "Orders found for this user"
     (JArr (map (λ d, JObj (orderDoc d.1 d.2))
              (filter (λ d, Order.user d.2 = uid) (map_to_list (db_orders s))))),
   s).
Proof. reflexivity. Qed.

Lemma getUserOrders_malformed s :
  getUserOrders IdMalformed s = (caught CastError, s).
Proof. reflexivity. Qed.

(** C10: for every user id the route answers with status 200, success
    true, no error, and as data an array that holds exactly the stored orders
    whose [user] is that id, each once (the array is empty when there is
    none, whether or not the user exists); whatever the parameter, the
    answer is never the 400 of the [!orders] branch, and the store is left
    as it was. *)
Theorem getUserOrders_never_400 (s : Store) (uid : ObjectId) :
  (∃ docs,
     getUserOrders (IdOk uid) s
     = (succeed 200 "Orders found for this user" (JArr docs), s)
     ∧ Res.status (getUserOrders (IdOk uid) s).1 = 200%nat
     ∧ Res.success (getUserOrders (IdOk uid) s).1 = true
     ∧ Res.error (getUserOrders (IdOk uid) s).1 = None
     ∧ Res.data (getUserOrders (IdOk uid) s).1 = JArr docs
     ∧ NoDup docs
     ∧ (∀ d, d ∈ docs ↔
             ∃ i o, db_orders s !! i = Some o ∧ Order.user o = uid
                    ∧ d = JObj (orderDoc i o))
     ∧ ((∀ i o, db_orders s !! i = Some o → Order.user o ≠ uid) → docs = []))
  ∧ (∀ p, Res.status (getUserOrders p s).1 ≠ 400%nat)
  ∧ (∀ p, (getUserOrders p s).2 = s).
Proof.
  split; [|split].
  - eexists. split; [apply getUserOrders_unfold|].
    rewrite getUserOrders_unfold. cbn [fst].
    do 4 (split; [reflexivity|]).
    assert (Hin : ∀ d,
      d ∈ map (λ d, JObj (orderDoc d.1 d.2))
            (filter (λ d, Order.user d.2 = uid) (map_to_list (db_orders s)))
      ↔ ∃ i o, db_orders s !! i = Some o ∧ Order.user o = uid
               ∧ d = JObj (orderDoc i o)).
    { intros d. rewrite list_elem_of_In, in_map_iff. split.
      - intros ([i o] & <- & Hin). apply list_elem_of_In, list_elem_of_filter in Hin.
        destruct Hin as [Hu Hin]. apply elem_of_map_to_list in Hin.
        exists i, o. done.
      - intros (i & o & Hlk & Hu & ->). exists (i, o). split; [done|].
        apply list_elem_of_In, list_elem_of_filter. split; [done|].
        by apply elem_of_map_to_list. }
    split; [|split; [exact Hin|]].
    + apply (NoDup_fmap_2_strong (λ d : nat * Order.t, JObj (orderDoc d.1 d.2))).
      * intros [i o] [j o'] Hi Hj Heq. simpl in Heq.
        apply list_elem_of_filter in Hi as [_ Hi], Hj as [_ Hj].
        apply elem_of_map_to_list in Hi, Hj.
        assert (i = j) as -> by (unfold orderDoc in Heq; congruence).
        congruence.
      * apply NoDup_filter, NoDup_map_to_list.
    + intros Hnone.
      destruct (map _ _) as [|d ds]; [done|].
      destruct (proj1 (Hin d)) as (i & o & Hlk & Hu & _);
        [apply list_elem_of_here|].
      by destruct (Hnone i o Hlk).
  - intros [i|]; [rewrite getUserOrders_unfold | rewrite getUserOrders_malformed];
      simpl; lia.
  - intros [i|]; done.
Qed.

(** On [demoStore]: user 3 has the one order, user 99 has none and is no
    user; both are answered 200. *)
Lemma getUserOrders_never_400_witness :
  (Res.status (getUserOrders (IdOk 3%nat) demoStore).1 = 200%nat
   ∧ Res.success (getUserOrders (IdOk 3%nat) demoStore).1 = true
   ∧ Res.data (getUserOrders (IdOk 3%nat) demoStore).1
     = JArr [ JObj (orderDoc 6%nat demoOrder) ])
  ∧ (Res.status (getUserOrders (IdOk 99%nat) demoStore).1 = 200%nat
     ∧ Res.success (getUserOrders (IdOk 99%nat) demoStore).1 = true
     ∧ Res.data (getUserOrders (IdOk 99%nat) demoStore).1 = JArr []).
Proof.
  destruct (getUserOrders_never_400 demoStore 3%nat)
    as [(docs3 & _ & Hs3 & Hok3 & _ & Hd3 & _) _].
  destruct (getUserOrders_never_400 demoStore 99%nat)
    as [(docs9 & _ & Hs9 & Hok9 & _ & Hd9 & _ & _ & Hnone) _].
  split.
  - split; [exact Hs3|]. split; [exact Hok3|]. reflexivity.
  - split; [exact Hs9|]. split; [exact Hok9|]. rewrite Hd9. f_equal.
    apply Hnone. intros i o Hlk.
    destruct (decide (i = 6%nat)) as [->|Hne].
    + vm_compute in Hlk. injection Hlk as <-. discriminate.
    + simpl in Hlk. by rewrite lookup_singleton_ne in Hlk.
Defined.

(** ** DELETE /orders/:id *)

Lemma deleteOrder_absent i s :
  db_orders s !! i = None →
  deleteOrder (IdOk i) s
  = ((fail 404 "Unable to find and delete this order", []), s).
Proof.
  intros Hi. unfold deleteOrder, tryCatch, findOrderByIdAndRemove, castObjectId.
  unfold mbind, M_bind, mret, M_ret. rewrite Hi.
  by rewrite (with_orders_delete_absent _ _ Hi).
Qed.

Lemma deleteOrder_present i o s :
  db_orders s !! i = Some o →
  deleteOrder (IdOk i) s
  = ((succeed 200 "This order has been deleted" (JObj (orderDoc i o)),
      map RemoveOrderItem (Order.orderItems o)),
     with_orders (delete i) s).
Proof.
  intros Hi. unfold deleteOrder, tryCatch, findOrderByIdAndRemove, castObjectId.
  unfold mbind, M_bind, mret, M_ret. by rewrite Hi.
Qed.

Lemma deleteOrder_malformed s :
  deleteOrder IdMalformed s = ((caught CastError, []), s).
Proof. reflexivity. Qed.

(** C9: for an id that no stored order has, the route answers 404, starts no
    removal, and the store after the request is the store before it. *)
Theorem deleteOrder_not_found (s : Store) (i : ObjectId) :
  db_orders s !! i = None →
  Res.status (deleteOrder (IdOk i) s).1.1 = 404%nat
  ∧ Res.success (deleteOrder (IdOk i) s).1.1 = false
  ∧ (deleteOrder (IdOk i) s).1.2 = []
  ∧ (deleteOrder (IdOk i) s).2 = s
  ∧ deleteOrderSettled (IdOk i) s
    = (fail 404 "Unable to find and delete this order", s).
Proof.
  intros Hi. unfold deleteOrderSettled. rewrite (deleteOrder_absent _ _ Hi). done.
Qed.

(** The effect of the removal tasks on the collections. *)
Lemma settle_orders ts s : db_orders (settle ts s) = db_orders s.
Proof.
  revert s. induction ts as [|[id] ts IH]; intros s; [done|].
  unfold settle in *. simpl. by rewrite IH.
Qed.

Lemma settle_frame ts s :
  db_products (settle ts s) = db_products s
  ∧ db_categories (settle ts s) = db_categories s
  ∧ db_users (settle ts s) = db_users s
  ∧ nextId (settle ts s) = nextId s.
Proof.
  revert s. induction ts as [|[id] ts IH]; intros s; [done|].
  unfold settle in *. simpl. by destruct (IH (with_orderItems (delete id) s)) as (-> & -> & -> & ->).
Qed.

Lemma settle_orderItems ids s j :
  db_orderItems (settle (map RemoveOrderItem ids) s) !! j
  = if decide (j ∈ ids) then None else db_orderItems s !! j.
Proof.
  revert s. induction ids as [|id ids IH]; intros s; [done|].
  unfold settle in *. cbn [map fold_left]. rewrite IH.
  change (db_orderItems (runTask s (RemoveOrderItem id)))
    with (delete id (db_orderItems s)).
  destruct (decide (j ∈ ids)) as [Hin|Hnin],
           (decide (j ∈ id :: ids)) as [Hin'|Hnin']; try done.
  - destruct Hnin'. by apply list_elem_of_further.
  - apply elem_of_cons in Hin' as [->|?]; [apply lookup_delete_eq|done].
  - rewrite lookup_delete_ne; [done|]. intros ->. apply Hnin', list_elem_of_here.
Qed.

(** The removals started by the handler may complete in any order: the
    store they leave is the same. *)
Lemma settle_any_order ids ts s :
  ts ≡ₚ map RemoveOrderItem ids →
  settle ts s = settle (map RemoveOrderItem ids) s.
Proof.
  intros Hp. revert s. induction Hp as [|t l l' Hp IH|t u l|l l' l'' H1 IH1 H2 IH2];
    intros s.
  - done.
  - unfold settle in *. simpl. apply IH.
  - unfold settle. simpl. f_equal. destruct t as [a], u as [b]. simpl.
    unfold with_orderItems. simpl. f_equal. apply delete_delete.
  - by rewrite IH1, IH2.
Qed.

(** What the store is once the removals have run.  For a stored order the
    route answers 200 with the order, removes it, and starts one removal per
    line item id of the order; once these have run, in whatever order they
    complete, a lookup of any of the line item ids finds nothing, the other
    line items are as before, and so is the rest of the store. *)
Lemma deleteOrder_once_settled (s : Store) (i : ObjectId) (o : Order.t) :
  db_orders s !! i = Some o →
  ∃ tasks s1,
    deleteOrder (IdOk i) s
    = ((succeed 200 "This order has been deleted" (JObj (orderDoc i o)), tasks), s1)
    ∧ tasks = map RemoveOrderItem (Order.orderItems o)
    ∧ db_orders s1 = delete i (db_orders s)
    ∧ ∀ done_order, done_order ≡ₚ tasks →
        let s2 := settle done_order s1 in
        (deleteOrderSettled (IdOk i) s).2 = s2
        ∧ db_orders s2 !! i = None
        ∧ (∀ j, j ≠ i → db_orders s2 !! j = db_orders s !! j)
        ∧ (∀ id, id ∈ Order.orderItems o → db_orderItems s2 !! id = None)
        ∧ (∀ id, id ∉ Order.orderItems o →
                 db_orderItems s2 !! id = db_orderItems s !! id)
        ∧ db_products s2 = db_products s
        ∧ db_categories s2 = db_categories s
        ∧ db_users s2 = db_users s.
Proof.
  intros Hi. eexists _, _. split; [apply (deleteOrder_present _ _ _ Hi)|].
  split; [done|]. split; [done|].
  intros done_order Hp s2. subst s2.
  rewrite (settle_any_order _ _ _ Hp).
  unfold deleteOrderSettled. rewrite (deleteOrder_present _ _ _ Hi).
  split; [done|]. rewrite settle_orders. simpl.
  split; [apply lookup_delete_eq|].
  split; [intros j Hj; by apply lookup_delete_ne|].
  split; [intros id Hid; rewrite settle_orderItems; by rewrite decide_True|].
  split; [intros id Hid; rewrite settle_orderItems; by rewrite decide_False|].
  by destruct (settle_frame (map RemoveOrderItem (Order.orderItems o))
                 (with_orders (delete i) s)) as (-> & -> & -> & _).
Qed.

Lemma deleteOrder_not_found_witness :
  db_orders demoStore !! 9%nat = None
  ∧ Res.status (deleteOrder (IdOk 9%nat) demoStore).1.1 = 404%nat
  ∧ (deleteOrder (IdOk 9%nat) demoStore).2 = demoStore.
Proof.
  assert (H : db_orders demoStore !! 9%nat = None) by reflexivity.
  destruct (deleteOrder_not_found demoStore 9%nat H) as (H404 & _ & _ & Hs & _).
  exact (conj H (conj H404 Hs)).
Defined.

(** At the response the line items are all still there: the handler has
    removed the order and nothing else. *)
Lemma deleteOrder_at_response i o s :
  db_orders s !! i = Some o →
  db_orderItems (deleteOrder (IdOk i) s).2 = db_orderItems s
  ∧ (deleteOrder (IdOk i) s).1.2 = map RemoveOrderItem (Order.orderItems o)
  ∧ db_orders (deleteOrder (IdOk i) s).2 = delete i (db_orders s).
Proof. intros Hi. by rewrite (deleteOrder_present _ _ _ Hi). Qed.

(** C3: the handler does not await the removals of the line items.  For a
    stored order the DELETE answers 200 with success, and in the store it
    leaves at that moment the order is gone while the line items are exactly
    those there were before: a lookup of a line item the order referred to
    still finds it.  The removals are tasks that have been started and have
    not run; the store after the request alone, before any of them ends, is
    that same store. *)
Theorem deleteOrder_answers_before_cascade (s : Store) (i : ObjectId) (o : Order.t) :
  db_orders s !! i = Some o →
  Res.status (deleteOrder (IdOk i) s).1.1 = 200%nat
  ∧ Res.success (deleteOrder (IdOk i) s).1.1 = true
  ∧ db_orders (deleteOrder (IdOk i) s).2 !! i = None
  ∧ db_orderItems (deleteOrder (IdOk i) s).2 = db_orderItems s
  ∧ (deleteOrder (IdOk i) s).1.2 = map RemoveOrderItem (Order.orderItems o)
  ∧ ∀ id it,
      id ∈ Order.orderItems o → db_orderItems s !! id = Some it →
      db_orderItems (deleteOrder (IdOk i) s).2 !! id = Some it
      ∧ db_orderItems (run [ OrderRoute (DeleteOrder (IdOk i)) ] s) !! id = Some it.
Proof.
  intros Hi.
  assert (Hrun : run [ OrderRoute (DeleteOrder (IdOk i)) ] s
                 = (deleteOrder (IdOk i) s).2) by reflexivity.
  rewrite Hrun. rewrite (deleteOrder_present _ _ _ Hi). cbn [fst snd].
  split; [done|]. split; [done|]. split; [apply lookup_delete_eq|].
  split; [done|]. split; [done|]. intros id it _ Hit. by split.
Qed.

Lemma deleteOrder_answers_before_cascade_witness :
  db_orders demoStore !! 6%nat = Some demoOrder
  ∧ Res.status (deleteOrder (IdOk 6%nat) demoStore).1.1 = 200%nat
  ∧ db_orders (deleteOrder (IdOk 6%nat) demoStore).2 !! 6%nat = None
  ∧ db_orderItems (deleteOrder (IdOk 6%nat) demoStore).2 !! 4%nat
    = Some (OrderItem.mk 3%float (Some 1%nat))
  ∧ db_orderItems (deleteOrder (IdOk 6%nat) demoStore).2 !! 5%nat
    = Some (OrderItem.mk 2%float (Some 2%nat))
  ∧ (deleteOrder (IdOk 6%nat) demoStore).1.2
    = [ RemoveOrderItem 4%nat; RemoveOrderItem 5%nat ].
Proof.
  assert (H : db_orders demoStore !! 6%nat = Some demoOrder) by reflexivity.
  destruct (deleteOrder_answers_before_cascade demoStore 6%nat demoOrder H)
    as (H200 & _ & Hgone & _ & Htasks & Hitems).
  split; [exact H|]. split; [exact H200|]. split; [exact Hgone|].
  split; [|split; [|exact Htasks]].
  - apply (Hitems 4%nat); [apply list_elem_of_here|reflexivity].
  - apply (Hitems 5%nat); [apply list_elem_of_further, list_elem_of_here|reflexivity].
Defined.
(** ** PUT /orders/:id *)

Lemma putOrder_present i o st s :
  db_orders s !! i = Some o →
  putOrder (IdOk i) st s
  = (succeed 200 "The status for this order has been updated"
       (JObj (orderDoc i (Order.set_status st o))),
     with_orders <[ i := Order.set_status st o ]> s).
Proof.
  intros Hi. unfold putOrder, tryCatch, findOrderByIdAndUpdateStatus, castObjectId.
  unfold mbind, M_bind, mret, M_ret. by rewrite Hi.
Qed.

Lemma putOrder_absent i st s :
  db_orders s !! i = None →
  putOrder (IdOk i) st s
  = (fail 400 "Unable to update status for this order", s).
Proof.
  intros Hi. unfold putOrder, tryCatch, findOrderByIdAndUpdateStatus, castObjectId.
  unfold mbind, M_bind, mret, M_ret. by rewrite Hi.
Qed.

(** C6: for a stored order and any status string, the route answers 200
    with the order as it is after the update; the stored order has the new
    status and every other field as before; every other order, and every
    other collection, is as before. *)
Theorem putOrder_only_status (s : Store) (i : ObjectId) (o : Order.t) (st : string) :
  db_orders s !! i = Some o →
  ∃ o' s',
    putOrder (IdOk i) st s
    = (succeed 200 "The status for this order has been updated"
         (JObj (orderDoc i o')), s')
    ∧ db_orders s' !! i = Some o'
    ∧ Order.status o' = st
    ∧ Order.orderItems o' = Order.orderItems o
    ∧ Order.shippingAddress1 o' = Order.shippingAddress1 o
    ∧ Order.shippingAddress2 o' = Order.shippingAddress2 o
    ∧ Order.city o' = Order.city o
    ∧ Order.zip o' = Order.zip o
    ∧ Order.country o' = Order.country o
    ∧ Order.phone o' = Order.phone o
    ∧ Order.totalPrice o' = Order.totalPrice o
    ∧ Order.user o' = Order.user o
    ∧ Order.dateOrdered o' = Order.dateOrdered o
    ∧ (∀ j, j ≠ i → db_orders s' !! j = db_orders s !! j)
    ∧ db_orderItems s' = db_orderItems s
    ∧ db_products s' = db_products s
    ∧ db_categories s' = db_categories s
    ∧ db_users s' = db_users s
    ∧ nextId s' = nextId s.
Proof.
  intros Hi. eexists _, _. split; [apply (putOrder_present _ _ _ _ Hi)|].
  simpl. split; [apply lookup_insert_eq|].
  repeat (split; [reflexivity|]).
  split; [|done]. intros j Hj. by apply lookup_insert_ne.
Qed.

Lemma putOrder_only_status_witness :
  db_orders demoStore !! 6%nat = Some demoOrder
  ∧ json_field "status" (Res.data (putOrder (IdOk 6%nat) "Shipped" demoStore).1)
    = Some (JStr "Shipped")
  ∧ json_field "totalPrice" (Res.data (putOrder (IdOk 6%nat) "Shipped" demoStore).1)
    = Some (JDouble 40).
Proof.
  assert (H : db_orders demoStore !! 6%nat = Some demoOrder) by reflexivity.
  destruct (putOrder_only_status demoStore 6%nat demoOrder "Shipped" H)
    as (o' & s' & Hput & _ & Hst & _ & _ & _ & _ & _ & _ & _ & Htot & _).
  split; [exact H|]. rewrite Hput. simpl. rewrite Hst, Htot. split; reflexivity.
Defined.

(** ** GET /orders and GET /orders/:id *)

Lemma field_selectExclude ks k fs :
  field k (selectExclude ks fs) = if decide (k ∈ ks) then None else field k fs.
Proof.
  unfold selectExclude. induction fs as [|[k' v] fs IH].
  - by case_decide.
  - rewrite filter_cons. cbn beta. cbn [fst].
    destruct (decide (k' ∉ ks)) as [Hk'|Hk']; cbn [field]; rewrite IH;
      destruct (String.eqb_spec k k') as [->|Hne]; try done.
    + by repeat case_decide.
    + by repeat case_decide.
Qed.

Lemma getOrders_unfold s :
  getOrders s =
  (succeed 200 (if (size (db_orders s) =? 0)%nat then "No orders" else "Orders found")
     (JArr (map (λ d, JObj (selectExclude addressFields (populatedOrderDoc s d.1 d.2)))
              (merge_sort newerFirst (map_to_list (db_orders s))))), s).
Proof.
  unfold getOrders, tryCatch, getStore, mbind, M_bind, mret, M_ret. simpl.
  rewrite length_map, (Permutation_length (merge_sort_Permutation _ _)).
  by rewrite length_map_to_list.
Qed.

Lemma getOrder_present i o s :
  db_orders s !! i = Some o →
  getOrder (IdOk i) s
  = (succeed 200 "Order with this id has been found"
       (JObj (populatedOrderDoc s i o)), s).
Proof.
  intros Hi. unfold getOrder, tryCatch, castObjectId, getStore.
  unfold mbind, M_bind, mret, M_ret. by rewrite Hi.
Qed.

Lemma getOrder_absent i s :
  db_orders s !! i = None →
  getOrder (IdOk i) s = (fail 500 "Unable to get order with this id", s).
Proof.
  intros Hi. unfold getOrder, tryCatch, castObjectId, getStore.
  unfold mbind, M_bind, mret, M_ret. by rewrite Hi.
Qed.

(** C4: the list route answers 200 with one object per stored order; each
    is the representation the get-by-id route gives of that order with the
    properties shippingAddress1, shippingAddress2, city, zip and country
    removed: it has none of the five, and has every other property as
    get-by-id gives it.  The get-by-id route, for a stored order, answers 200
    with an object that has the five properties, with the values of the
    stored order. *)
Theorem orders_address_fields (s : Store) :
  (∃ docs,
     (getOrders s).1 = succeed 200
         (if (size (db_orders s) =? 0)%nat then "No orders" else "Orders found")
         (JArr docs)
     ∧ Res.status (getOrders s).1 = 200%nat
     ∧ Res.success (getOrders s).1 = true
     ∧ Res.data (getOrders s).1 = JArr docs
     ∧ length docs = size (db_orders s)
     ∧ ∀ d, d ∈ docs →
         ∃ i o fs,
           db_orders s !! i = Some o
           ∧ d = JObj fs
           ∧ field "shippingAddress1" fs = None
           ∧ field "shippingAddress2" fs = None
           ∧ field "city" fs = None
           ∧ field "zip" fs = None
           ∧ field "country" fs = None
           ∧ field "_id" fs = Some (JOid i)
           ∧ (∀ k, k ∈ addressFields → field k fs = None)
           ∧ (∀ k, k ∉ [ "shippingAddress1"; "shippingAddress2"; "city"; "zip";
                         "country" ] →
                   field k fs = json_field k (Res.data (getOrder (IdOk i) s).1)))
  ∧ (∀ i o,
       db_orders s !! i = Some o →
       ∃ fs,
         (getOrder (IdOk i) s).1
         = succeed 200 "Order with this id has been found" (JObj fs)
         ∧ Res.status (getOrder (IdOk i) s).1 = 200%nat
         ∧ Res.data (getOrder (IdOk i) s).1 = JObj fs
         ∧ field "shippingAddress1" fs = Some (JStr (Order.shippingAddress1 o))
         ∧ field "shippingAddress2" fs = Some (JStr (Order.shippingAddress2 o))
         ∧ field "city" fs = Some (JStr (Order.city o))
         ∧ field "zip" fs = Some (JStr (Order.zip o))
         ∧ field "country" fs = Some (JStr (Order.country o))).
Proof.
  split.
  - eexists. rewrite getOrders_unfold. cbn [fst].
    do 4 (split; [reflexivity|]). split.
    + rewrite length_map, (Permutation_length (merge_sort_Permutation _ _)).
      apply length_map_to_list.
    + intros d Hd. apply list_elem_of_In, in_map_iff in Hd as ([i o] & <- & Hin).
      apply list_elem_of_In in Hin. rewrite merge_sort_Permutation in Hin.
      apply elem_of_map_to_list in Hin. simpl.
      exists i, o, (selectExclude addressFields (populatedOrderDoc s i o)).
      split; [done|]. split; [done|].
      do 6 (split; [reflexivity|]). split.
      * intros k Hk. rewrite field_selectExclude. by rewrite decide_True.
      * intros k Hk. rewrite field_selectExclude, decide_False by exact Hk.
        by rewrite (getOrder_present _ _ _ Hin).
  - intros i o Hi. eexists. rewrite (getOrder_present _ _ _ Hi).
    split; [reflexivity|]. done.
Qed.

(** On [demoStore] get-by-id of order 6 shows its city, and the one entry
    of the list is that order without the address properties. *)
Lemma orders_address_fields_witness :
  db_orders demoStore !! 6%nat = Some demoOrder
  ∧ json_field "city" (Res.data (getOrder (IdOk 6%nat) demoStore).1)
    = Some (JStr "Prague")
  ∧ ∃ d, Res.data (getOrders demoStore).1 = JArr [ d ]
         ∧ json_field "_id" d = Some (JOid 6%nat)
         ∧ json_field "status" d = Some (JStr "Pending")
         ∧ json_field "shippingAddress1" d = None
         ∧ json_field "shippingAddress2" d = None
         ∧ json_field "city" d = None
         ∧ json_field "zip" d = None
         ∧ json_field "country" d = None.
Proof.
  assert (H : db_orders demoStore !! 6%nat = Some demoOrder) by reflexivity.
  destruct (orders_address_fields demoStore)
    as [(docs & _ & _ & _ & Hdata & Hlen & Hall) Hget].
  destruct (Hget 6%nat demoOrder H) as (fs & _ & _ & Hg & _ & _ & Hcity & _).
  split; [exact H|]. split; [rewrite Hg; exact Hcity|].
  destruct docs as [|d [|d' docs]]; try discriminate Hlen.
  exists d. split; [exact Hdata|].
  destruct (Hall d) as (i & o & fs' & _ & -> & H1 & H2 & H3 & H4 & H5 & _);
    [apply list_elem_of_here|].
  assert (Hd : JArr [ JObj fs' ] = Res.data (getOrders demoStore).1)
    by (symmetry; exact Hdata).
  vm_compute in Hd. injection Hd as ->.
  repeat split; reflexivity.
Defined.

(** ** The line item materializer *)

Lemma saveOrderItem_ok q p p' s :
  castProduct p = Some p' →
  saveOrderItem (Line.mk (Some q) p) s
  = (Ok (nextId s),
     mkStore (db_orders s)
             (<[ nextId s := OrderItem.mk (num_val q) p' ]> (db_orderItems s))
             (db_products s) (db_categories s) (db_users s) (S (nextId s))).
Proof.
  intros Hp. unfold saveOrderItem, newObjectId, insertOrderItem.
  unfold mbind, M_bind. cbn [Line.quantity Line.product]. by rewrite Hp.
Qed.

Lemma saveOrderItem_invalid it s :
  lineSaves it = false →
  saveOrderItem it s
  = (Throw ValidationError,
     mkStore (db_orders s) (db_orderItems s)
             (db_products s) (db_categories s) (db_users s) (S (nextId s))).
Proof.
  intros Hv. unfold saveOrderItem, newObjectId, lineSaves in *.
  unfold mbind, M_bind.
  destruct (Line.quantity it) as [q|]; [|done].
  by destruct (castProduct (Line.product it)).
Qed.

Lemma lineSaves_true it :
  lineSaves it = true →
  ∃ q p', Line.quantity it = Some q ∧ castProduct (Line.product it) = Some p'.
Proof.
  unfold lineSaves. destruct (Line.quantity it) as [q|]; [|done].
  destruct (castProduct (Line.product it)) as [p'|]; [|done]. by eexists _, _.
Qed.

Lemma promiseAll_cons {A} (t : M A) ts s :
  promiseAll (t :: ts) s
  = let '(r, s1) := t s in
    let '(rs, s2) := promiseAll ts s1 in
    (match r, rs with
     | Ok a, Ok l => Ok (a :: l)
     | Throw e, _ => Throw e
     | Ok _, Throw e => Throw e
     end, s2).
Proof. reflexivity. Qed.

(** When every line passes the validation, the materializer returns the ids
    [nextId s], [nextId s + 1], ... and stores the k-th line under the k-th
    of them. *)
Lemma materialize_ok items s :
  Forall (λ it, lineSaves it = true) items →
  ∃ s',
    materialize items s = (Ok (seq (nextId s) (length items)), s')
    ∧ nextId s' = (nextId s + length items)%nat
    ∧ sameCatalogue s s'
    ∧ (∀ k it, items !! k = Some it →
         ∃ q p', Line.quantity it = Some q
                 ∧ castProduct (Line.product it) = Some p'
                 ∧ db_orderItems s' !! (nextId s + k)%nat
                   = Some (OrderItem.mk (num_val q) p'))
    ∧ (∀ j, ¬ (nextId s ≤ j < nextId s + length items)%nat →
         db_orderItems s' !! j = db_orderItems s !! j).
Proof.
  unfold materialize. intros Hall. revert s.
  induction Hall as [|[qo p] items Hv Hall IH]; intros s.
  - exists s. simpl. rewrite Nat.add_0_r. repeat split; try done.
  - destruct (lineSaves_true _ Hv) as (q & p' & Hq & Hp). simpl in Hq, Hp. subst qo.
    cbn [map]. rewrite promiseAll_cons, (saveOrderItem_ok q p p' s Hp).
    set (s1 := mkStore _ _ _ _ _ _).
    destruct (IH s1) as (s' & Hrun & Hnext & (Ho & Hpr & Hc & Hu) & Hnew & Hold).
    exists s'. rewrite Hrun. subst s1. simpl in *.
    split; [done|]. split; [lia|]. split; [done|]. split.
    + intros [|k] it Hk; simpl in Hk.
      * injection Hk as <-. exists q, p'. split; [done|]. split; [done|].
        rewrite Nat.add_0_r, Hold by lia. apply lookup_insert_eq.
      * destruct (Hnew k it Hk) as (q' & p'' & Hq' & Hp' & Hlk).
        exists q', p''. split; [done|]. split; [done|].
        by replace (nextId s + S k)%nat with (S (nextId s + k)) by lia.
    + intros j Hj. rewrite Hold by lia. apply lookup_insert_ne. lia.
Qed.

Lemma lineOf_saves (ps : list (Number * ObjectId)) :
  Forall (λ it, lineSaves it = true) (map lineOf ps).
Proof.
  apply Forall_forall. intros it Hin.
  by apply list_elem_of_In, in_map_iff in Hin as (p & <- & _).
Qed.

(** C5: for every sequence of (quantity, product) pairs the materializer
    returns as many ids as there are pairs, all different; the k-th id is
    the id of a stored line item that holds the k-th pair; no other line
    item is written and no other collection is touched. *)
Theorem materialize_keeps_order (ps : list (Number * ObjectId)) (s : Store) :
  ∃ ids s',
    materialize (map (λ p, Line.mk (Some p.1) (Some (IdOk p.2))) ps) s = (Ok ids, s')
    ∧ length ids = length ps
    ∧ NoDup ids
    ∧ (∀ k q p, ps !! k = Some (q, p) →
         ∃ id, ids !! k = Some id
               ∧ db_orderItems s' !! id = Some (OrderItem.mk (num_val q) (Some p)))
    ∧ (∀ j, j ∉ ids → db_orderItems s' !! j = db_orderItems s !! j)
    ∧ sameCatalogue s s'.
Proof.
  change (map (λ p : Number * ObjectId, Line.mk (Some p.1) (Some (IdOk p.2))) ps)
    with (map lineOf ps).
  set (items := map lineOf ps).
  assert (Hlen : length items = length ps) by (subst items; apply length_map).
  destruct (materialize_ok items s (lineOf_saves ps))
    as (s' & Hrun & _ & Hcat & Hnew & Hold).
  exists (seq (nextId s) (length items)), s'.
  split; [done|]. split; [by rewrite length_seq|]. split; [apply NoDup_seq|].
  split; [|split; [|done]].
  - intros k q p Hk. exists (nextId s + k)%nat. split.
    + apply lookup_seq. split; [done|]. rewrite Hlen. by eapply lookup_lt_Some.
    + destruct (Hnew k (lineOf (q, p))) as (q' & p' & Hq' & Hp' & Hlk).
      * subst items. change (map ?f ps) with (f <$> ps).
        by rewrite list_lookup_fmap, Hk.
      * simpl in *. injection Hq' as <-. by injection Hp' as <-.
  - intros j Hj. apply Hold. intros Hr. apply Hj, elem_of_seq. lia.
Qed.

(** ** POST /orders: the total *)

Lemma bind_ok {A B} (m : M A) (k : A → M B) s a s1 :
  m s = (Ok a, s1) → (x ← m; k x) s = k a s1.
Proof. intros Hm. unfold mbind, M_bind. by rewrite Hm. Qed.

Lemma bind_throw {A B} (m : M A) (k : A → M B) s e s1 :
  m s = (Throw e, s1) → (x ← m; k x) s = (Throw e, s1).
Proof. intros Hm. unfold mbind, M_bind. by rewrite Hm. Qed.

(** Tasks that only read: [Promise.all] collects their results and leaves
    the store as it is. *)
Lemma promiseAll_reads {A B} (f : A → M B) l rs s :
  Forall2 (λ x r, f x s = (Ok r, s)) l rs →
  promiseAll (map f l) s = (Ok rs, s).
Proof.
  induction 1 as [|x r l rs Hx _ IH]; [done|].
  cbn [map]. by rewrite promiseAll_cons, Hx, IH.
Qed.

Lemma subtotalOf_found id q p prod s :
  db_orderItems s !! id = Some (OrderItem.mk q (Some p)) →
  db_products s !! p = Some prod →
  subtotalOf id s = (Ok (Some (q * Product.price prod)%float), s).
Proof.
  intros Hit Hp. unfold subtotalOf, getStore, populatedPrice.
  unfold mbind at 1, M_bind. rewrite Hit. simpl. rewrite Hp. done.
Qed.

Lemma subtotalOf_store id s : (subtotalOf id s).2 = s.
Proof.
  unfold subtotalOf, getStore. unfold mbind at 1, M_bind.
  destruct (db_orderItems s !! id) as [item|]; [|done].
  by destruct (populatedPrice s item).
Qed.

Lemma subtotals_store ids s : (promiseAll (map subtotalOf ids) s).2 = s.
Proof.
  induction ids as [|id ids IH]; [done|].
  cbn [map]. rewrite promiseAll_cons.
  pose proof (subtotalOf_store id s) as Hs.
  destruct (subtotalOf id s) as [r s1]. simpl in Hs. subst s1.
  destruct (promiseAll (map subtotalOf ids) s) as [rs s2]. simpl in *. by subst s2.
Qed.

(** The reduction over subtotals that are all there is the sum of doubles,
    from the left. *)
Lemma fold_js_add {A} (f : A → float) (l : list A) (a : float) :
  fold_left js_add (map (λ x, Some (f x)) l) a
  = fold_left (λ a x, a + f x)%float l a.
Proof. revert a. induction l as [|x l IH]; intros a; [done|]. simpl. apply IH. Qed.

(** A request whose lines are the pairs [lines], all of products in the
    store: the line items are saved under the next ids, the subtotals are
    the products of doubles, and what is left to do is to save the order
    with the total the doubles give. *)
Lemma postOrder_priced now body s (lines : list (Number * ObjectId)) :
  Body.orderItems body = Some (map lineOf lines) →
  (∀ l, l ∈ lines → is_Some (db_products s !! l.2)) →
  ∃ s1,
    nextId s1 = (nextId s + length lines)%nat
    ∧ sameCatalogue s s1
    ∧ (∀ k l, lines !! k = Some l →
         db_orderItems s1 !! (nextId s + k)%nat
         = Some (OrderItem.mk (num_val l.1) (Some l.2)))
    ∧ (∀ j, ¬ (nextId s ≤ j < nextId s + length lines)%nat →
         db_orderItems s1 !! j = db_orderItems s !! j)
    ∧ postOrder now body s
      = tryCatch
          (savedOrder ← saveOrder now body (seq (nextId s) (length lines))
                                  (doubleTotal s lines);
           let doc := JObj (orderDoc savedOrder.1 savedOrder.2) in
           if negb (truthy doc)
           then mret (fail 400 "Unable to post this order")
           else mret (succeed 201 "This order has been posted" doc))
          caught s1.
Proof.
  intros Hbody Hprods.
  set (items := map lineOf lines) in *.
  assert (Hlen : length items = length lines) by (subst items; apply length_map).
  destruct (materialize_ok items s (lineOf_saves lines))
    as (s1 & Hrun & Hnext & (Ho & Hp & Hc & Hu) & Hnew & Hold).
  assert (Hitems : ∀ k l, lines !! k = Some l →
            db_orderItems s1 !! (nextId s + k)%nat
            = Some (OrderItem.mk (num_val l.1) (Some l.2))).
  { intros k l Hk. destruct (Hnew k (lineOf l)) as (q & p' & Hq' & Hp' & Hlk).
    - subst items. change (map ?f lines) with (f <$> lines).
      by rewrite list_lookup_fmap, Hk.
    - simpl in *. injection Hq' as <-. by injection Hp' as <-. }
  assert (Hsub : promiseAll (map subtotalOf (seq (nextId s) (length items))) s1
                 = (Ok (map (λ l, Some (num_val l.1 * priceOf s l.2)%float) lines),
                    s1)).
  { apply promiseAll_reads, Forall2_same_length_lookup_2.
    - by rewrite Hlen, length_seq, !length_map.
    - intros k id r Hid Hr. apply lookup_seq in Hid as [-> Hlt].
      change (map ?f lines) with (f <$> lines) in Hr.
      rewrite list_lookup_fmap in Hr.
      destruct (lines !! k) as [l|] eqn:Hk; [|done]. simpl in Hr.
      injection Hr as <-.
      destruct (Hprods l) as [prod Hprod]; [by eapply list_elem_of_lookup_2|].
      unfold priceOf. rewrite Hprod.
      apply (subtotalOf_found _ _ l.2); [by apply Hitems|by rewrite Hp]. }
  exists s1. split; [by rewrite Hnext, Hlen|]. split; [done|].
  split; [exact Hitems|]. split; [by rewrite <- Hlen|].
  unfold postOrder, tryCatch. rewrite Hbody. fold items.
  rewrite (bind_ok _ _ _ _ _ Hrun), (bind_ok _ _ _ _ _ Hsub).
  rewrite (fold_js_add (λ l : Number * ObjectId, num_val l.1 * priceOf s l.2)%float).
  fold (doubleTotal s lines). by rewrite Hlen.
Qed.

(** A request whose lines are the pairs [lines], all of products in the
    store, for a user id that is one, and whose total is a number, is
    answered 201; the order is stored under the next id after the ids of its
    line items, with the total the doubles give. *)
Lemma postOrder_valid now body s (lines : list (Number * ObjectId)) user :
  Body.orderItems body = Some (map lineOf lines) →
  Body.user body = IdOk user →
  (∀ l, l ∈ lines → is_Some (db_products s !! l.2)) →
  is_nan (doubleTotal s lines) = false →
  ∃ s1,
    let oid := (nextId s + length lines)%nat in
    let o := Order.mk (seq (nextId s) (length lines))
               (Body.shippingAddress1 body) (Body.shippingAddress2 body)
               (Body.city body) (Body.zip body) (Body.country body)
               (Body.phone body) (Body.status body)
               (doubleTotal s lines) user now in
    postOrder now body s
    = (succeed 201 "This order has been posted" (JObj (orderDoc oid o)),
       mkStore (<[ oid := o ]> (db_orders s)) (db_orderItems s1) (db_products s)
               (db_categories s) (db_users s) (S oid))
    ∧ ∀ k l, lines !! k = Some l →
        db_orderItems s1 !! (nextId s + k)%nat
        = Some (OrderItem.mk (num_val l.1) (Some l.2)).
Proof.
  intros Hbody Huser Hprods Hnan.
  destruct (postOrder_priced now body s lines Hbody Hprods)
    as (s1 & Hnext & (Ho & Hp & Hc & Hu) & Hitems & _ & Hpost).
  exists s1. split; [|exact Hitems]. rewrite Hpost.
  unfold tryCatch, saveOrder, newObjectId, insertOrder, with_orders.
  unfold mbind, M_bind, mret, M_ret. rewrite Huser, Hnan. simpl.
  by rewrite Hnext, Ho, Hp, Hc, Hu.
Qed.




(** One line of the materializer, valid or not: it draws one id and writes
    at most a line item. *)
Lemma saveOrderItem_frame it s :
  nextId (saveOrderItem it s).2 = S (nextId s)
  ∧ sameCatalogue s (saveOrderItem it s).2.
Proof.
  destruct (lineSaves it) eqn:Hv.
  - destruct (lineSaves_true _ Hv) as (q & p' & Hq & Hp). destruct it as [qo p].
    simpl in Hq, Hp. subst qo. by rewrite (saveOrderItem_ok q p p' s Hp).
  - by rewrite (saveOrderItem_invalid _ _ Hv).
Qed.

(** The materializer on any lines, valid or not: it draws one id per line
    and writes line items only. *)
Lemma materialize_frame items s :
  nextId (materialize items s).2 = (nextId s + length items)%nat
  ∧ sameCatalogue s (materialize items s).2.
Proof.
  unfold materialize. revert s. induction items as [|it items IH]; intros s.
  - simpl. split; [lia|done].
  - cbn [map]. rewrite promiseAll_cons.
    destruct (saveOrderItem_frame it s) as (Hn1 & Ho1 & Hp1 & Hc1 & Hu1).
    destruct (saveOrderItem it s) as [r s1]. simpl in Hn1, Ho1, Hp1, Hc1, Hu1.
    destruct (IH s1) as (Hn & Ho & Hp & Hc & Hu).
    destruct (promiseAll _ s1) as [rs s2]. simpl in *.
    split; [lia|]. repeat split; congruence.
Qed.

(** POST on any body: the orders are as before, or one order more under an
    id that had not been issued. *)
Lemma postOrder_orders now body s :
  (nextId s ≤ nextId (postOrder now body s).2)%nat
  ∧ (db_orders (postOrder now body s).2 = db_orders s
     ∨ ∃ id o, (nextId s ≤ id)%nat
               ∧ db_orders (postOrder now body s).2 = <[ id := o ]> (db_orders s)).
Proof.
  unfold postOrder, tryCatch.
  destruct (Body.orderItems body) as [items|]; [|simpl; split; [lia|by left]].
  destruct (materialize_frame items s) as (Hn & Ho & _).
  destruct (materialize items s) as [[ids|e] s1] eqn:Hm; simpl in Hn, Ho.
  2:{ rewrite (bind_throw _ _ _ _ _ Hm). simpl. split; [lia|by left]. }
  rewrite (bind_ok _ _ _ _ _ Hm).
  pose proof (subtotals_store ids s1) as Hs.
  destruct (promiseAll (map subtotalOf ids) s1) as [[subs|e] s2] eqn:Hsub;
    simpl in Hs; subst s2.
  2:{ rewrite (bind_throw _ _ _ _ _ Hsub). simpl. split; [lia|by left]. }
  rewrite (bind_ok _ _ _ _ _ Hsub).
  unfold saveOrder, newObjectId, insertOrder, with_orders.
  unfold mbind, M_bind, mret, M_ret, throw.
  destruct (Body.user body) as [user|]; [|simpl; split; [lia|by left]].
  destruct (is_nan (fold_left js_add subs 0%float)); simpl.
  - split; [lia|by left].
  - split; [lia|]. right. eexists _, _. split; [|by rewrite Ho]. lia.
Qed.





Lemma jsonNumber_finite f : is_finite f = true → jsonNumber f = JDouble f.
Proof. unfold jsonNumber. by intros ->. Qed.


Lemma demoLines_products :
  ∀ l : Number * ObjectId, l ∈ demoLines → is_Some (db_products demoStore !! l.2).
Proof.
  intros l Hl. apply elem_of_cons in Hl as [->|Hl]; [by eexists|].
  apply elem_of_cons in Hl as [->|Hl]; [by eexists|].
  by apply elem_of_nil in Hl.
Qed.


(** The double that 94906267 times 94906267 rounds to is 9007199515875288,
    one less than the product. *)
Lemma exactQ_big_square :
  (exactQ (94906267 * 94906267)%float == 9007199515875288)%Q
  ∧ (exactQ 94906267%float * exactQ 94906267%float == 9007199515875289)%Q.
Proof. split; reflexivity. Qed.


(** The scenarios of the specification, run on the model. *)
Example scenario_create_total :
  json_field "totalPrice" (Res.data (postOrder 2000 demoBody demoStore).1)
  = Some (JDouble 40).
Proof. reflexivity. Qed.

Example scenario_update_status :
  json_field "status"
    (Res.data (getOrder (IdOk 6%nat)
                 (putOrder (IdOk 6%nat) "Shipped" demoStore).2).1)
  = Some (JStr "Shipped").
Proof. reflexivity. Qed.

Example scenario_list_empty :
  getOrders emptyStore = (succeed 200 "No orders" (JArr []), emptyStore).
Proof. reflexivity. Qed.

Example scenario_missing_product :
  (postOrder 2000
     (Body.mk (Some [ lineOf (qty3, 9%nat) ]) "a" "b" "c" "d" "e" "f" "Pending"
        (IdOk 3%nat) None) demoStore).1
  = caught TypeError.
Proof. reflexivity. Qed.
(** * Further properties of the routes *)

(** ** GET /orders: order and content of the list *)

#[global] Instance newerFirst_total : Total newerFirst.
Proof. intros a b. unfold newerFirst. lia. Qed.

#[global] Instance newerFirst_trans : Transitive newerFirst.
Proof. intros a b c. unfold newerFirst. lia. Qed.

Lemma StronglySorted_lookup_lt {A} (R : relation A) l i j x y :
  StronglySorted R l → (i < j)%nat → l !! i = Some x → l !! j = Some y → R x y.
Proof.
  intros Hs. revert i j. induction Hs as [|a l Hs IH Hall]; intros i j Hij Hi Hj.
  - done.
  - destruct j as [|j]; [lia|]. simpl in Hj. destruct i as [|i].
    + injection Hi as <-. rewrite Forall_forall in Hall.
      apply Hall. by eapply list_elem_of_lookup_2.
    + simpl in Hi. apply (IH i j); [lia|done..].
Qed.

Lemma listed_field s i o k :
  k ∉ addressFields →
  field k (selectExclude addressFields (populatedOrderDoc s i o))
  = field k (populatedOrderDoc s i o).
Proof. intros Hk. rewrite field_selectExclude. by rewrite decide_False. Qed.

Lemma getOrders_data s :
  Res.data (getOrders s).1
  = JArr (map (λ d, JObj (selectExclude addressFields (populatedOrderDoc s d.1 d.2)))
            (merge_sort newerFirst (map_to_list (db_orders s)))).
Proof. by rewrite getOrders_unfold. Qed.

(** X1: the list is sorted by [dateOrdered], most recent first: an entry
    never has an older date than an entry after it. *)
Theorem getOrders_newest_first (s : Store) :
  ∃ docs,
    Res.data (getOrders s).1 = JArr docs
    ∧ ∀ i j di dj,
        (i < j)%nat → docs !! i = Some di → docs !! j = Some dj →
        ∃ ti tj,
          json_field "dateOrdered" di = Some (JNum ti)
          ∧ json_field "dateOrdered" dj = Some (JNum tj)
          ∧ (tj ≤ ti)%Z.
Proof.
  eexists. split; [apply getOrders_data|].
  intros i j di dj Hij Hi Hj.
  change (map ?f ?l) with (f <$> l) in Hi, Hj.
  rewrite list_lookup_fmap in Hi, Hj.
  destruct (merge_sort newerFirst (map_to_list (db_orders s)) !! i)
    as [[a oa]|] eqn:Ha; [|done].
  destruct (merge_sort newerFirst (map_to_list (db_orders s)) !! j)
    as [[b ob]|] eqn:Hb; [|done].
  simpl in Hi, Hj. injection Hi as <-. injection Hj as <-.
  exists (Order.dateOrdered oa), (Order.dateOrdered ob).
  split; [reflexivity|]. split; [reflexivity|].
  apply (StronglySorted_lookup_lt newerFirst
           (merge_sort newerFirst (map_to_list (db_orders s))) i j (a, oa) (b, ob));
    [|done..].
  apply StronglySorted_merge_sort; apply _.
Qed.

(** X2: the list holds every stored order exactly once: the [_id]s of its
    entries are the ids of the stored orders, up to order. *)
Theorem getOrders_complete (s : Store) :
  ∃ docs,
    Res.data (getOrders s).1 = JArr docs
    ∧ omap (json_field "_id") docs
      ≡ₚ map (λ d, JOid d.1) (map_to_list (db_orders s))
    ∧ length (omap (json_field "_id") docs) = length docs.
Proof.
  eexists. split; [apply getOrders_data|].
  assert (Hid : ∀ l : list (ObjectId * Order.t),
    omap (json_field "_id")
      (map (λ d, JObj (selectExclude addressFields (populatedOrderDoc s d.1 d.2))) l)
    = map (λ d, JOid d.1) l).
  { induction l as [|[i o] l IH]; [done|]. cbn [map omap list_omap].
    change (list_omap ?f ?l) with (omap f l). by rewrite IH. }
  rewrite Hid. split.
  - change (map ?f ?l) with (f <$> l). by rewrite merge_sort_Permutation.
  - by rewrite !length_map.
Qed.

(** ** Ids that match nothing, ids that are not ids *)

Lemma getOrder_malformed s : getOrder IdMalformed s = (caught CastError, s).
Proof. reflexivity. Qed.

Lemma putOrder_malformed st s : putOrder IdMalformed st s = (caught CastError, s).
Proof. reflexivity. Qed.

(** X3: the three routes that take an order id report an id that matches no
    stored order with three different statuses, 500 for GET, 400 for PUT and
    404 for DELETE, and none of them changes the store. *)
Theorem not_found_statuses (s : Store) (i : ObjectId) (st : string) :
  db_orders s !! i = None →
  getOrder (IdOk i) s = (fail 500 "Unable to get order with this id", s)
  ∧ putOrder (IdOk i) st s = (fail 400 "Unable to update status for this order", s)
  ∧ deleteOrderSettled (IdOk i) s
    = (fail 404 "Unable to find and delete this order", s).
Proof.
  intros Hi. split; [by apply getOrder_absent|]. split; [by apply putOrder_absent|].
  unfold deleteOrderSettled. by rewrite (deleteOrder_absent _ _ Hi).
Qed.

Lemma not_found_statuses_witness :
  db_orders demoStore !! 9%nat = None
  ∧ Res.status (getOrder (IdOk 9%nat) demoStore).1 = 500%nat
  ∧ Res.status (putOrder (IdOk 9%nat) "Shipped" demoStore).1 = 400%nat
  ∧ Res.status (deleteOrderSettled (IdOk 9%nat) demoStore).1 = 404%nat.
Proof.
  assert (H : db_orders demoStore !! 9%nat = None) by reflexivity.
  destruct (not_found_statuses demoStore 9%nat "Shipped" H) as (Hg & Hp & Hd).
  split; [exact H|]. rewrite Hg, Hp, Hd. repeat split; reflexivity.
Defined.

(** A parameter that is not an ObjectId makes each of the four routes that
    take one answer 500 with the CastError, whatever the store, and nothing
    is written. *)
Lemma malformed_id_statuses (s : Store) (st : string) :
  getOrder IdMalformed s = (caught CastError, s)
  ∧ putOrder IdMalformed st s = (caught CastError, s)
  ∧ deleteOrderSettled IdMalformed s = (caught CastError, s)
  ∧ getUserOrders IdMalformed s = (caught CastError, s)
  ∧ Res.status (caught CastError) = 500%nat
  ∧ Res.data (caught CastError) = JNull.
Proof. repeat split; reflexivity. Qed.

(** ** The routes that read *)

Lemma getTotalSales_store sum s : (getTotalSales sum s).2 = s.
Proof.
  destruct (decide (db_orders s = ∅)) as [He|Hne].
  - by rewrite (getTotalSales_no_orders _ _ He).
  - by rewrite (getTotalSales_some_orders _ _ Hne).
Qed.

Lemma getOrder_store id s : (getOrder id s).2 = s.
Proof.
  destruct id as [i|]; [|done].
  destruct (db_orders s !! i) as [o|] eqn:Hi.
  - by rewrite (getOrder_present _ _ _ Hi).
  - by rewrite (getOrder_absent _ _ Hi).
Qed.

(** X4: the five GET routes leave the store exactly as it was, whatever
    they answer (the 500 of an empty total or count included). *)
Theorem read_routes_write_nothing (r : Request) (s : Store) :
  readOnly r = true → (route r s).2 = s.
Proof.
  destruct r as [|id|now body|id st|id| |sum|id];
    cbn [route answered snd readOnly]; intros Hr; try discriminate.
  - by rewrite getOrders_unfold.
  - apply getOrder_store.
  - by rewrite getCount_unfold.
  - apply getTotalSales_store.
  - by destruct id.
Qed.

Lemma read_routes_write_nothing_witness :
  readOnly ListOrders = true
  ∧ (route ListOrders demoStore).2 = demoStore
  ∧ (route GetCount emptyStore).2 = emptyStore.
Proof.
  split; [reflexivity|]. split.
  - apply (read_routes_write_nothing ListOrders demoStore). reflexivity.
  - apply (read_routes_write_nothing GetCount emptyStore). reflexivity.
Defined.

(** ** Dangling references in the expansion *)

Lemma populateOrderItems_ids s ids :
  omap (json_field "_id") (populateOrderItems s ids)
  = map JOid (filter (λ id, is_Some (db_orderItems s !! id)) ids).
Proof.
  unfold populateOrderItems. induction ids as [|id ids IH]; [done|].
  rewrite filter_cons. cbn [omap list_omap].
  change (list_omap ?f ?l) with (omap f l).
  unfold populateOrderItem at 1.
  destruct (db_orderItems s !! id) as [it|] eqn:Hid.
  - rewrite decide_True by done. cbn [omap list_omap map].
    change (list_omap ?f ?l) with (omap f l). rewrite IH. done.
  - rewrite decide_False by (by intros [? ?]). done.
Qed.

Lemma populateOrderItems_length s ids :
  length (populateOrderItems s ids)
  = length (filter (λ id, is_Some (db_orderItems s !! id)) ids).
Proof.
  unfold populateOrderItems. induction ids as [|id ids IH]; [done|].
  rewrite filter_cons. cbn [omap list_omap].
  change (list_omap ?f ?l) with (omap f l).
  destruct (db_orderItems s !! id) as [it|] eqn:Hid.
  - rewrite decide_True by done. unfold populateOrderItem at 1. rewrite Hid.
    cbn [length]. by rewrite IH.
  - rewrite decide_False by (by intros [? ?]).
    unfold populateOrderItem at 1. by rewrite Hid.
Qed.

(** X5: get-by-id of a stored order answers 200 whatever has become of the
    documents the order refers to.  The expanded [orderItems] has one entry
    per referenced id that still resolves, in the order of the references
    (an id whose line item is gone is left out); the entry of a line item
    whose product is gone has [product: null]; [user] is null when the user
    is gone. *)
Theorem getOrder_dangling_references (s : Store) (i : ObjectId) (o : Order.t) :
  db_orders s !! i = Some o →
  ∃ items,
    Res.status (getOrder (IdOk i) s).1 = 200%nat
    ∧ json_field "orderItems" (Res.data (getOrder (IdOk i) s).1) = Some (JArr items)
    ∧ omap (json_field "_id") items
      = map JOid (filter (λ id, is_Some (db_orderItems s !! id)) (Order.orderItems o))
    ∧ length items
      = length (filter (λ id, is_Some (db_orderItems s !! id)) (Order.orderItems o))
    ∧ (∀ id q p,
         id ∈ Order.orderItems o →
         db_orderItems s !! id = Some (OrderItem.mk q (Some p)) →
         db_products s !! p = None →
         JObj [ ("_id", JOid id); ("quantity", jsonNumber q); ("product", JNull);
                ("__v", JNum 0) ] ∈ items)
    ∧ (db_users s !! Order.user o = None →
       json_field "user" (Res.data (getOrder (IdOk i) s).1) = Some JNull).
Proof.
  intros Hi. exists (populateOrderItems s (Order.orderItems o)).
  rewrite (getOrder_present _ _ _ Hi). split; [done|]. split; [done|].
  split; [apply populateOrderItems_ids|]. split.
  - apply populateOrderItems_length.
  - split.
    + intros id q p Hin Hit Hp. apply list_elem_of_omap. exists id. split; [done|].
      unfold populateOrderItem, populateProduct. rewrite Hit. simpl. by rewrite Hp.
    + intros Hu. simpl. unfold populateUser. by rewrite Hu.
Qed.

Lemma getOrder_dangling_references_witness :
  db_orders danglingStore !! 6%nat = Some demoOrder
  ∧ json_field "orderItems" (Res.data (getOrder (IdOk 6%nat) danglingStore).1)
    = Some (JArr [ JObj [ ("_id", JOid 4%nat); ("quantity", JDouble 3);
                          ("product", JNull); ("__v", JNum 0) ] ])
  ∧ json_field "user" (Res.data (getOrder (IdOk 6%nat) danglingStore).1)
    = Some JNull.
Proof.
  assert (H : db_orders danglingStore !! 6%nat = Some demoOrder) by reflexivity.
  destruct (getOrder_dangling_references danglingStore 6%nat demoOrder H)
    as (items & _ & _ & _ & _ & _ & Hu).
  split; [exact H|]. split; [reflexivity|]. apply Hu. reflexivity.
Defined.

(** ** POST /orders: what a request that cannot be priced leaves behind *)

(** The materializer on any lines: the result, and what is stored once all
    its saves have run. *)
Lemma materialize_general items s :
  promiseAll (map saveOrderItem items) s
  = (if decide (Forall (λ it, lineSaves it = true) items)
     then Ok (seq (nextId s) (length items))
     else Throw ValidationError,
     (materialize items s).2)
  ∧ (∀ k it, items !! k = Some it →
       db_orderItems (materialize items s).2 !! (nextId s + k)%nat
       = match Line.quantity it, castProduct (Line.product it) with
         | Some q, Some p' => Some (OrderItem.mk (num_val q) p')
         | _, _ => db_orderItems s !! (nextId s + k)%nat
         end)
  ∧ (∀ j, ¬ (nextId s ≤ j < nextId s + length items)%nat →
       db_orderItems (materialize items s).2 !! j = db_orderItems s !! j).
Proof.
  unfold materialize. revert s. induction items as [|it items IH]; intros s.
  - split; [by rewrite decide_True by constructor|]. split; [done|done].
  - cbn [map]. rewrite promiseAll_cons.
    destruct (lineSaves it) eqn:Hv.
    + destruct (lineSaves_true _ Hv) as (q & p' & Hq & Hp).
      destruct it as [qo p]. simpl in Hq, Hp. subst qo.
      rewrite (saveOrderItem_ok q p p' s Hp).
      set (s1 := mkStore _ _ _ _ _ _). destruct (IH s1) as (Hres & Hnew & Hold).
      rewrite Hres. cbn [fst snd]. subst s1. cbn [nextId db_orderItems] in *.
      split; [|split].
      * destruct (decide (Forall _ items)) as [Hall|Hnall].
        -- rewrite decide_True; [done|]. by constructor.
        -- rewrite decide_False; [done|]. intros Hc. by apply Forall_cons in Hc as [_ ?].
      * intros [|k] it Hk; simpl in Hk.
        -- injection Hk as <-. cbn [Line.quantity Line.product]. rewrite Hp.
           rewrite Nat.add_0_r, Hold by lia. apply lookup_insert_eq.
        -- replace (nextId s + S k)%nat with (S (nextId s) + k)%nat by lia.
           rewrite (Hnew k it Hk).
           destruct (Line.quantity it); [|apply lookup_insert_ne; lia].
           destruct (castProduct (Line.product it)); [done|].
           apply lookup_insert_ne. lia.
      * intros j Hj. cbn [length] in Hj. rewrite Hold by lia. apply lookup_insert_ne. lia.
    + rewrite (saveOrderItem_invalid _ _ Hv).
      set (s1 := mkStore _ _ _ _ _ _). destruct (IH s1) as (Hres & Hnew & Hold).
      rewrite Hres. cbn [fst snd]. subst s1. cbn [nextId db_orderItems] in *.
      split; [|split].
      * rewrite decide_False; [done|]. intros Hc.
        apply Forall_cons in Hc as [Hc _]. congruence.
      * intros [|k] it' Hk; simpl in Hk.
        -- injection Hk as <-. rewrite Nat.add_0_r, Hold by lia.
           unfold lineSaves in Hv. destruct (Line.quantity it); [|done].
           by destruct (castProduct (Line.product it)).
        -- replace (nextId s + S k)%nat with (S (nextId s) + k)%nat by lia.
           by rewrite (Hnew k it' Hk).
      * intros j Hj. cbn [length] in Hj. by rewrite Hold by lia.
Qed.

Lemma subtotalOf_unfold id s :
  subtotalOf id s
  = (match db_orderItems s !! id with
     | Some item =>
         match populatedPrice s item with
         | Some price => Ok (Some (OrderItem.quantity item * price)%float)
         | None => Throw TypeError
         end
     | None => Ok None
     end, s).
Proof.
  unfold subtotalOf, getStore. unfold mbind at 1, M_bind.
  destruct (db_orderItems s !! id) as [item|]; [|done].
  by destruct (populatedPrice s item).
Qed.

(** One subtotal that cannot be computed rejects the whole. *)
Lemma subtotals_throw ids s :
  (∃ id, id ∈ ids ∧ (subtotalOf id s).1 = Throw TypeError) →
  promiseAll (map subtotalOf ids) s = (Throw TypeError, s).
Proof.
  induction ids as [|id ids IH]; intros (x & Hx & Hthrow).
  - by apply elem_of_nil in Hx.
  - cbn [map]. rewrite promiseAll_cons, (subtotalOf_unfold id s).
    cbv beta iota zeta.
    pose proof (subtotals_store ids s) as Hst.
    destruct (promiseAll (map subtotalOf ids) s) as [rs s2] eqn:Hrest.
    simpl in Hst. subst s2.
    destruct (db_orderItems s !! id) as [item|] eqn:Hid.
    + destruct (populatedPrice s item) as [price|] eqn:Hprice; [|done].
      apply elem_of_cons in Hx as [->|Hx].
      * rewrite subtotalOf_unfold, Hid, Hprice in Hthrow. discriminate.
      * assert (Hr : (rs, s) = (Throw TypeError, s)) by (apply IH; eauto).
        by injection Hr as ->.
    + apply elem_of_cons in Hx as [->|Hx].
      * rewrite subtotalOf_unfold, Hid in Hthrow. discriminate.
      * assert (Hr : (rs, s) = (Throw TypeError, s)) by (apply IH; eauto).
        by injection Hr as ->.
Qed.

Lemma postOrder_none now body s :
  Body.orderItems body = None → postOrder now body s = (caught TypeError, s).
Proof. intros Hb. unfold postOrder, tryCatch. by rewrite Hb. Qed.

(** After the materializer the POST route writes no line item and draws at
    most one id. *)
Lemma postOrder_after_materialize now body s items :
  Body.orderItems body = Some items →
  db_orderItems (postOrder now body s).2 = db_orderItems (materialize items s).2
  ∧ (nextId (materialize items s).2 ≤ nextId (postOrder now body s).2)%nat.
Proof.
  intros Hb. unfold postOrder, tryCatch. rewrite Hb.
  destruct (materialize items s) as [[ids|e] s1] eqn:Hm.
  2:{ by rewrite (bind_throw _ _ _ _ _ Hm). }
  rewrite (bind_ok _ _ _ _ _ Hm).
  pose proof (subtotals_store ids s1) as Hs.
  destruct (promiseAll (map subtotalOf ids) s1) as [[subs|e] s2] eqn:Hsub;
    simpl in Hs; subst s2.
  2:{ by rewrite (bind_throw _ _ _ _ _ Hsub). }
  rewrite (bind_ok _ _ _ _ _ Hsub).
  unfold saveOrder, newObjectId, insertOrder, with_orders.
  unfold mbind, M_bind, mret, M_ret, throw.
  destruct (Body.user body); [|simpl; split; [done|lia]].
  destruct (is_nan (fold_left js_add subs 0%float)); simpl; split; (done || lia).
Qed.


Lemma lineValid_false_price s1 s it q p' :
  db_products s1 = db_products s →
  Line.quantity it = Some q → castProduct (Line.product it) = Some p' →
  lineValid s it = false →
  populatedPrice s1 (OrderItem.mk (num_val q) p') = None.
Proof.
  intros Hp Hq Hc Hv. unfold lineValid in Hv. rewrite Hq in Hv.
  unfold populatedPrice. simpl.
  destruct (Line.product it) as [[p|]|]; simpl in Hc; [| |by injection Hc as <-].
  - injection Hc as <-. simpl. rewrite Hp. apply bool_decide_eq_false in Hv.
    destruct (db_products s !! p); [|done]. destruct Hv. by eexists.
  - discriminate.
Qed.

Lemma postOrder_no_price now body s items :
  Body.orderItems body = Some items →
  Forall (λ it, lineSaves it = true) items →
  Exists (λ it, lineValid s it = false) items →
  postOrder now body s = (caught TypeError, (materialize items s).2).
Proof.
  intros Hb Hq Hbad. unfold postOrder, tryCatch. rewrite Hb.
  destruct (materialize_general items s) as (Hres & Hnew & _).
  destruct (materialize_frame items s) as (_ & _ & Hp & _).
  rewrite decide_True in Hres by done.
  unfold materialize at 1. rewrite (bind_ok _ _ _ _ _ Hres).
  rewrite (bind_throw _ _ _ TypeError (materialize items s).2); [done|].
  apply subtotals_throw.
  apply Exists_exists in Hbad as (it & Hin & Hv).
  apply list_elem_of_lookup in Hin as [k Hk].
  rewrite Forall_forall in Hq.
  destruct (lineSaves_true it) as (q & p' & Hqit & Hpit);
    [apply Hq; by eapply list_elem_of_lookup_2|].
  exists (nextId s + k)%nat. split.
  - apply elem_of_seq. apply lookup_lt_Some in Hk. lia.
  - rewrite subtotalOf_unfold. cbn [fst]. rewrite (Hnew k it Hk), Hqit, Hpit.
    by rewrite (lineValid_false_price _ s it q p' Hp Hqit Hpit Hv).
Qed.


Lemma lines_lineValid s (lines : list (Number * ObjectId)) :
  (∀ l, l ∈ lines → is_Some (db_products s !! l.2)) →
  Forall (λ it, lineValid s it = true) (map lineOf lines).
Proof.
  intros Hp. apply Forall_forall. intros it Hin.
  apply list_elem_of_In, in_map_iff in Hin as (l & <- & Hl).
  unfold lineValid, lineOf. simpl. apply bool_decide_eq_true, Hp.
  by apply list_elem_of_In.
Qed.

Lemma lineValid_saves s it : lineValid s it = true → lineSaves it = true.
Proof.
  unfold lineValid, lineSaves. destruct (Line.quantity it); [|done].
  by destruct (Line.product it) as [[p|]|].
Qed.

Lemma not_all_valid s items :
  ¬ Forall (λ it, lineValid s it = true) items →
  Exists (λ it, lineValid s it = false) items.
Proof.
  intros Hn. apply not_Forall_Exists in Hn; [|apply _].
  eapply Exists_impl; [exact Hn|]. intros it Hit. simpl in Hit.
  by destruct (lineValid s it).
Qed.



(** X7: a POST that fails on the price has no rollback.  When every line of
    the body is saved (the route has awaited all the saves) but not every
    line has a stored product, the route answers 500 with the TypeError and
    stores no order, yet every line has been written as a line item (the
    k-th under the k-th id drawn) that no order lists, and as many ids as
    there are lines have been consumed. *)
Theorem postOrder_no_rollback (now : Z) (body : Body.t) (s : Store)
    (items : list Line.t) :
  Body.orderItems body = Some items →
  Forall (λ it, lineSaves it = true) items →
  ¬ Forall (λ it, lineValid s it = true) items →
  (postOrder now body s).1 = caught TypeError
  ∧ Res.status (postOrder now body s).1 = 500%nat
  ∧ Res.data (postOrder now body s).1 = JNull
  ∧ db_orders (postOrder now body s).2 = db_orders s
  ∧ (∀ k it, items !! k = Some it →
       ∃ q p', Line.quantity it = Some q
               ∧ castProduct (Line.product it) = Some p'
               ∧ db_orderItems (postOrder now body s).2 !! (nextId s + k)%nat
                 = Some (OrderItem.mk (num_val q) p'))
  ∧ nextId (postOrder now body s).2 = (nextId s + length items)%nat.
Proof.
  intros Hb Hq Hv.
  rewrite (postOrder_no_price now body s items Hb Hq (not_all_valid _ _ Hv)).
  cbn [fst snd].
  destruct (materialize_frame items s) as (Hn & Ho & _).
  destruct (materialize_general items s) as (_ & Hnew & _).
  split; [done|]. split; [done|]. split; [done|]. split; [done|]. split; [|done].
  intros k it Hk. rewrite Forall_forall in Hq.
  destruct (lineSaves_true it) as (q & p' & Hqit & Hpit);
    [apply Hq; by eapply list_elem_of_lookup_2|].
  exists q, p'. split; [done|]. split; [done|].
  by rewrite (Hnew k it Hk), Hqit, Hpit.
Qed.

Lemma postOrder_no_rollback_witness :
  Body.orderItems demoBadBody = Some [ lineOf (qty3, 1%nat); lineOf (qty2, 9%nat) ]
  ∧ Res.status (postOrder 2000 demoBadBody demoStore).1 = 500%nat
  ∧ db_orders (postOrder 2000 demoBadBody demoStore).2 = db_orders demoStore
  ∧ db_orderItems (postOrder 2000 demoBadBody demoStore).2 !! 7%nat
    = Some (OrderItem.mk 3%float (Some 1%nat))
  ∧ db_orderItems (postOrder 2000 demoBadBody demoStore).2 !! 8%nat
    = Some (OrderItem.mk 2%float (Some 9%nat))
  ∧ nextId (postOrder 2000 demoBadBody demoStore).2 = 9%nat.
Proof.
  assert (Hq : Forall (λ it, lineSaves it = true)
                 [ lineOf (qty3, 1%nat); lineOf (qty2, 9%nat) ])
    by (repeat constructor).
  assert (H : ¬ Forall (λ it, lineValid demoStore it = true)
                [ lineOf (qty3, 1%nat); lineOf (qty2, 9%nat) ]).
  { intros Hall. apply Forall_cons in Hall as [_ Hall].
    apply Forall_cons in Hall as [Hbad _]. vm_compute in Hbad. discriminate. }
  destruct (postOrder_no_rollback 2000 demoBadBody demoStore _ eq_refl Hq H)
    as (_ & H500 & _ & Ho & _ & Hn).
  split; [reflexivity|]. split; [exact H500|]. split; [exact Ho|].
  split; [reflexivity|]. split; [reflexivity|exact Hn].
Defined.

(** ** The ids of a store *)

Lemma postOrder_orders_issued now body s :
  db_orders (postOrder now body s).2 = db_orders s
  ∨ ∃ id o, (nextId s ≤ id < nextId (postOrder now body s).2)%nat
            ∧ db_orders (postOrder now body s).2 = <[ id := o ]> (db_orders s).
Proof.
  unfold postOrder, tryCatch.
  destruct (Body.orderItems body) as [items|]; [|by left].
  destruct (materialize_frame items s) as (Hn & Ho & _).
  destruct (materialize items s) as [[ids|e] s1] eqn:Hm; simpl in Hn, Ho.
  2:{ rewrite (bind_throw _ _ _ _ _ Hm). by left. }
  rewrite (bind_ok _ _ _ _ _ Hm).
  pose proof (subtotals_store ids s1) as Hs.
  destruct (promiseAll (map subtotalOf ids) s1) as [[subs|e] s2] eqn:Hsub;
    simpl in Hs; subst s2.
  2:{ rewrite (bind_throw _ _ _ _ _ Hsub). by left. }
  rewrite (bind_ok _ _ _ _ _ Hsub).
  unfold saveOrder, newObjectId, insertOrder, with_orders.
  unfold mbind, M_bind, mret, M_ret, throw.
  destruct (Body.user body); [|by left].
  destruct (is_nan (fold_left js_add subs 0%float)); simpl.
  - by left.
  - right. eexists _, _. split; [|by rewrite Ho]. lia.
Qed.

Lemma postOrder_idsIssued now body s :
  idsIssued s → idsIssued (postOrder now body s).2.
Proof.
  intros [Hord Hitm].
  destruct (postOrder_orders now body s) as [Hn _].
  split.
  - intros j Hj.
    destruct (postOrder_orders_issued now body s) as [Ho|(id & o & Hid & Ho)];
      rewrite Ho in Hj.
    + specialize (Hord j Hj). lia.
    + destruct (decide (j = id)) as [->|Hne]; [lia|].
      rewrite lookup_insert_ne in Hj by done. specialize (Hord j Hj). lia.
  - intros j Hj. destruct (Body.orderItems body) as [items|] eqn:Hb.
    2:{ rewrite (postOrder_none now body s Hb) in Hj |- *. by apply Hitm. }
    destruct (postOrder_after_materialize now body s items Hb) as [Hitems Hge].
    rewrite Hitems in Hj.
    destruct (materialize_general items s) as (_ & _ & Hold).
    destruct (materialize_frame items s) as (Hnm & _).
    destruct (decide (nextId s ≤ j < nextId s + length items)%nat)
      as [Hin|Hout]; [lia|].
    rewrite (Hold j Hout) in Hj. specialize (Hitm j Hj). lia.
Qed.

Lemma route_idsIssued r s : idsIssued s → idsIssued (route r s).2.
Proof.
  intros Hwf. destruct r as [|id|now body|id st|id| |sum|id];
    cbn [route answered snd].
  - by rewrite getOrders_unfold.
  - by rewrite getOrder_store.
  - by apply postOrder_idsIssued.
  - destruct id as [i|]; [|done].
    destruct (db_orders s !! i) as [o|] eqn:Hi.
    + rewrite (putOrder_present _ _ _ _ Hi). destruct Hwf as [Hord Hitm].
      split; [|done]. simpl. intros j Hj.
      destruct (decide (j = i)) as [->|Hne]; [apply Hord; by eexists|].
      rewrite lookup_insert_ne in Hj by done. by apply Hord.
    + by rewrite (putOrder_absent _ _ _ Hi).
  - destruct id as [i|]; [|done].
    destruct (db_orders s !! i) as [o|] eqn:Hi.
    + rewrite (deleteOrder_present _ _ _ Hi). destruct Hwf as [Hord Hitm].
      cbn [snd]. split; simpl; [|done].
      intros j [x Hj]. apply lookup_delete_Some in Hj as [_ Hj].
      apply Hord. by eexists.
    + by rewrite (deleteOrder_absent _ _ Hi).
  - by rewrite getCount_unfold.
  - by rewrite getTotalSales_store.
  - by destruct id.
Qed.

Lemma step_idsIssued w e : idsIssued w.1 → idsIssued (step w e).1.
Proof.
  intros Hwf. destruct e as [r|k|ps cs us n]; cbn [step].
  - by apply route_idsIssued.
  - destruct (w.2 !! k) as [[id]|]; [|done]. destruct Hwf as [Hord Hitm].
    split; simpl; [done|]. intros j [x Hj].
    apply lookup_delete_Some in Hj as [_ Hj]. apply Hitm. by eexists.
  - destruct Hwf as [Hord Hitm]. split; simpl; intros j Hj.
    + specialize (Hord j Hj). lia.
    + specialize (Hitm j Hj). lia.
Qed.

Lemma runFrom_idsIssued es w : idsIssued w.1 → idsIssued (runFrom es w).1.
Proof.
  unfold runFrom. revert w. induction es as [|e es IH]; intros w Hwf; [done|].
  simpl. apply IH. by apply step_idsIssued.
Qed.

(** X8: the routes keep the ids of the store in order: if every order and
    every line item is stored under an id the counter has issued, this is
    still so after any sequence of requests to the order routes, of
    completions of the removals they have started and of activity of the
    other routes.  It holds of the empty store. *)
Theorem idsIssued_invariant (s : Store) (es : list Event) :
  idsIssued s → idsIssued (run es s).
Proof. intros Hwf. by apply (runFrom_idsIssued es (s, [])). Qed.

Lemma idsIssued_empty : idsIssued emptyStore.
Proof. split; intros j [x Hj]; cbn in Hj; by rewrite lookup_empty in Hj. Qed.

Lemma idsIssued_invariant_witness :
  idsIssued emptyStore
  ∧ idsIssued (run [ OrderRoute (PostOrder 2000 demoBadBody);
                     OrderRoute (DeleteOrder (IdOk 0%nat)) ] emptyStore).
Proof.
  split; [exact idsIssued_empty|].
  apply (idsIssued_invariant emptyStore). exact idsIssued_empty.
Defined.

(** ** How the routes compose *)

Lemma totals_insert (m : gmap nat Order.t) i o :
  m !! i = None →
  map (λ d, Order.totalPrice d.2) (map_to_list (<[ i := o ]> m))
  ≡ₚ Order.totalPrice o :: map (λ d, Order.totalPrice d.2) (map_to_list m).
Proof.
  intros Hi. change (map ?f ?l) with (f <$> l).
  by rewrite (map_to_list_insert _ i o Hi).
Qed.

Lemma sum_totals_perm (l l' : list (ObjectId * Order.t)) :
  l ≡ₚ l' →
  (foldr Qplus 0 (map (λ d, exactQ (Order.totalPrice d.2)) l)
   == foldr Qplus 0 (map (λ d, exactQ (Order.totalPrice d.2)) l'))%Q.
Proof.
  induction 1 as [|x l l' _ IH|x y l|l l' l'' _ IH1 _ IH2]; simpl.
  - reflexivity.
  - by rewrite IH.
  - ring.
  - by rewrite IH1.
Qed.

Lemma salesOf_delete s s' i o :
  db_orders s' = delete i (db_orders s) →
  db_orders s !! i = Some o →
  (salesOf s == exactQ (Order.totalPrice o) + salesOf s')%Q.
Proof.
  intros Ho Hi. unfold salesOf. rewrite Ho.
  by rewrite <- (sum_totals_perm _ _ (map_to_list_delete _ i o Hi)).
Qed.

Lemma idsIssued_fresh_order s j :
  idsIssued s → (nextId s ≤ j)%nat → db_orders s !! j = None.
Proof.
  intros [Hord _] Hj. destruct (db_orders s !! j) as [o|] eqn:Hlk; [|done].
  assert (j < nextId s)%nat by (apply Hord; by eexists). lia.
Qed.

Lemma idsIssued_fresh_item s j :
  idsIssued s → (nextId s ≤ j)%nat → db_orderItems s !! j = None.
Proof.
  intros [_ Hitm] Hj. destruct (db_orderItems s !! j) as [o|] eqn:Hlk; [|done].
  assert (j < nextId s)%nat by (apply Hitm; by eexists). lia.
Qed.

Lemma idsIssued_demoStore : idsIssued demoStore.
Proof.
  split; intros j [x Hj].
  - destruct (decide (j = 6%nat)) as [->|Hne]; [simpl; lia|].
    simpl in Hj. by rewrite lookup_singleton_ne in Hj.
  - destruct (decide (j = 4%nat)) as [->|H4]; [simpl; lia|].
    destruct (decide (j = 5%nat)) as [->|H5]; [simpl; lia|].
    simpl in Hj. rewrite lookup_insert_ne in Hj by done.
    by rewrite lookup_singleton_ne in Hj.
Qed.

(** X9: in a store whose ids are in order, a POST that succeeds shows in
    the two reports: right after it the count route answers 200 with one
    more than the number of orders before, and the total sales route answers
    200 with what the accumulator of the server gives for the totals of the
    orders there were and the total of the new order. *)
Theorem postOrder_then_reports (now : Z) (body : Body.t) (s : Store)
    (lines : list (Number * ObjectId)) (user : ObjectId)
    (sum : list float → float) :
  idsIssued s →
  Body.orderItems body = Some (map lineOf lines) →
  Body.user body = IdOk user →
  (∀ l, l ∈ lines → is_Some (db_products s !! l.2)) →
  is_nan (doubleTotal s lines) = false →
  let s' := (postOrder now body s).2 in
  Res.status (getCount s').1 = 200%nat
  ∧ json_field "count" (Res.data (getCount s').1)
    = Some (JNum (Z.of_nat (size (db_orders s)) + 1))
  ∧ ∃ totals,
      totals ≡ₚ doubleTotal s lines
                :: map (λ d, Order.totalPrice d.2) (map_to_list (db_orders s))
      ∧ Res.status (getTotalSales sum s').1 = 200%nat
      ∧ json_field "totalsales" (Res.data (getTotalSales sum s').1)
        = Some (jsonNumber (sum totals)).
Proof.
  intros Hwf Hbody Huser Hprods Hnan s'.
  destruct (postOrder_valid now body s lines user Hbody Huser Hprods Hnan)
    as (s1 & Hpost & _).
  cbv zeta in Hpost. subst s'. rewrite Hpost. cbn [snd].
  set (oid := (nextId s + length lines)%nat) in *.
  set (o := Order.mk _ _ _ _ _ _ _ _ _ _ _) in *.
  set (s' := mkStore _ _ _ _ _ _).
  assert (Hfresh : db_orders s !! oid = None)
    by (apply idsIssued_fresh_order; [done|subst oid; lia]).
  assert (Hne : db_orders s' ≠ ∅).
  { subst s'. simpl. apply insert_non_empty. }
  rewrite (getCount_some_orders _ Hne). subst s'. cbn [fst db_orders].
  split; [done|]. split.
  - cbn [Res.data succeed json_field field]. simpl.
    by rewrite (map_size_insert_None _ _ _ Hfresh), Nat2Z.inj_succ.
  - eexists. split; [|rewrite (getTotalSales_some_orders _ _ Hne); split; reflexivity].
    cbn [db_orders]. apply (totals_insert _ oid o Hfresh).
Qed.

Lemma postOrder_then_reports_witness :
  idsIssued demoStore
  ∧ is_nan (doubleTotal demoStore demoLines) = false
  ∧ json_field "count" (Res.data (getCount (postOrder 2000 demoBody demoStore).2).1)
    = Some (JNum 2).
Proof.
  destruct (postOrder_then_reports 2000 demoBody demoStore demoLines 3%nat
              (λ _, 0%float) idsIssued_demoStore eq_refl eq_refl
              demoLines_products eq_refl) as (_ & Hc & _).
  split; [exact idsIssued_demoStore|]. split; [reflexivity|]. exact Hc.
Defined.

(** X10: after a status update, get-by-id shows the new status, and shows
    every other property of the order exactly as it showed it before. *)
Theorem putOrder_then_getOrder (s : Store) (i : ObjectId) (o : Order.t) (st : string) :
  db_orders s !! i = Some o →
  let before := Res.data (getOrder (IdOk i) s).1 in
  let after := Res.data (getOrder (IdOk i) (putOrder (IdOk i) st s).2).1 in
  Res.status (getOrder (IdOk i) (putOrder (IdOk i) st s).2).1 = 200%nat
  ∧ json_field "status" after = Some (JStr st)
  ∧ ∀ k, k ≠ "status" → json_field k after = json_field k before.
Proof.
  intros Hi before after. subst before after.
  rewrite (putOrder_present _ _ _ _ Hi). cbn [snd].
  rewrite (getOrder_present i (Order.set_status st o)
             (with_orders <[ i := Order.set_status st o ]> s))
    by (simpl; apply lookup_insert_eq).
  rewrite (getOrder_present _ _ _ Hi).
  split; [done|]. split; [done|].
  intros k Hk. cbn [fst Res.data succeed json_field].
  unfold populatedOrderDoc. cbn [field].
  repeat match goal with
         | |- context [String.eqb k ?x] =>
             destruct (String.eqb_spec k x) as [->|?]; [done|]
         end.
  done.
Qed.

Lemma putOrder_then_getOrder_witness :
  db_orders demoStore !! 6%nat = Some demoOrder
  ∧ json_field "status"
      (Res.data (getOrder (IdOk 6%nat) (putOrder (IdOk 6%nat) "Shipped" demoStore).2).1)
    = Some (JStr "Shipped")
  ∧ json_field "city"
      (Res.data (getOrder (IdOk 6%nat) (putOrder (IdOk 6%nat) "Shipped" demoStore).2).1)
    = json_field "city" (Res.data (getOrder (IdOk 6%nat) demoStore).1).
Proof.
  assert (H : db_orders demoStore !! 6%nat = Some demoOrder) by reflexivity.
  destruct (putOrder_then_getOrder demoStore 6%nat demoOrder "Shipped" H)
    as (_ & Hst & Hrest).
  split; [exact H|]. split; [exact Hst|]. apply Hrest. discriminate.
Defined.

(** X11: of two status updates of the same order the last one wins: the
    response and the store are those of the second update alone (so an
    update repeated is an update done once).  This holds for every
    parameter, also one that matches no order. *)
Theorem putOrder_last_wins (s : Store) (id : IdParam) (st1 st2 : string) :
  putOrder id st2 (putOrder id st1 s).2 = putOrder id st2 s.
Proof.
  destruct id as [i|]; [|done].
  destruct (db_orders s !! i) as [o|] eqn:Hi.
  - rewrite (putOrder_present _ _ st1 _ Hi). cbn [snd].
    rewrite (putOrder_present i (Order.set_status st1 o) st2
               (with_orders <[ i := Order.set_status st1 o ]> s))
      by (simpl; apply lookup_insert_eq).
    rewrite (putOrder_present _ _ st2 _ Hi).
    unfold with_orders, Order.set_status. simpl. by rewrite insert_insert_eq.
  - rewrite (putOrder_absent _ st1 _ Hi). cbn [snd].
    by rewrite (putOrder_absent _ st2 _ Hi).
Qed.

Lemma deleteOrderSettled_orders s i o :
  db_orders s !! i = Some o →
  db_orders (deleteOrderSettled (IdOk i) s).2 = delete i (db_orders s).
Proof.
  intros Hi. unfold deleteOrderSettled. rewrite (deleteOrder_present _ _ _ Hi).
  cbn [snd]. by rewrite settle_orders.
Qed.

(** X12: a delete is final and shows in the reports: after the delete of
    a stored order, get-by-id of its id answers 500 and a second delete
    answers 404, both without touching the store; the store has one order
    less, and its sales (the sum of the totals of its orders, in exact
    arithmetic) are the sales before minus the total of the order.  This
    holds of the store once the removals of the line items have run, and
    already of the store the handler leaves when it answers. *)
Theorem deleteOrder_then (s : Store) (i : ObjectId) (o : Order.t) :
  db_orders s !! i = Some o →
  let s' := (deleteOrderSettled (IdOk i) s).2 in
  let s0 := (deleteOrder (IdOk i) s).2 in
  getOrder (IdOk i) s' = (fail 500 "Unable to get order with this id", s')
  ∧ deleteOrderSettled (IdOk i) s'
    = (fail 404 "Unable to find and delete this order", s')
  ∧ size (db_orders s') = pred (size (db_orders s))
  ∧ (salesOf s' == salesOf s - exactQ (Order.totalPrice o))%Q
  ∧ getOrder (IdOk i) s0 = (fail 500 "Unable to get order with this id", s0)
  ∧ deleteOrder (IdOk i) s0
    = ((fail 404 "Unable to find and delete this order", []), s0)
  ∧ size (db_orders s0) = pred (size (db_orders s))
  ∧ (salesOf s0 == salesOf s - exactQ (Order.totalPrice o))%Q.
Proof.
  intros Hi s' s0.
  pose proof (deleteOrderSettled_orders s i o Hi) as Ho. fold s' in Ho.
  assert (Ho0 : db_orders s0 = delete i (db_orders s))
    by (subst s0; by rewrite (deleteOrder_present _ _ _ Hi)).
  assert (Hgone : db_orders s' !! i = None) by (rewrite Ho; apply lookup_delete_eq).
  assert (Hgone0 : db_orders s0 !! i = None) by (rewrite Ho0; apply lookup_delete_eq).
  split; [by apply getOrder_absent|]. split.
  { unfold deleteOrderSettled. by rewrite (deleteOrder_absent _ _ Hgone). }
  split; [rewrite Ho; apply map_size_delete_Some; by eexists|].
  split; [rewrite (salesOf_delete s s' i o Ho Hi); ring|].
  split; [by apply getOrder_absent|].
  split; [by apply deleteOrder_absent|].
  split; [rewrite Ho0; apply map_size_delete_Some; by eexists|].
  rewrite (salesOf_delete s s0 i o Ho0 Hi). ring.
Qed.

Lemma deleteOrder_then_witness :
  db_orders demoStore !! 6%nat = Some demoOrder
  ∧ Res.status (getOrder (IdOk 6%nat) (deleteOrderSettled (IdOk 6%nat) demoStore).2).1
    = 500%nat
  ∧ Res.status (deleteOrderSettled (IdOk 6%nat)
                  (deleteOrderSettled (IdOk 6%nat) demoStore).2).1
    = 404%nat
  ∧ (salesOf (deleteOrderSettled (IdOk 6%nat) demoStore).2 == 0)%Q.
Proof.
  assert (H : db_orders demoStore !! 6%nat = Some demoOrder) by reflexivity.
  destruct (deleteOrder_then demoStore 6%nat demoOrder H) as (Hg & Hd & _ & Hs & _).
  split; [exact H|]. rewrite Hg, Hd, Hs. repeat split; reflexivity.
Defined.

(** X13: in a store whose ids are in order, creating an order and then
    deleting it: the delete answers 200, having started one removal per
    line item of the order, and the orders are again those the store had.
    When it answers, the line items the POST had written are all still
    stored; once the removals have run, in whatever order, the line items
    are again those the store had.  Only the ids drawn are not given
    back. *)
Theorem postOrder_then_deleteOrder (now : Z) (body : Body.t) (s : Store)
    (lines : list (Number * ObjectId)) (user : ObjectId) :
  idsIssued s →
  Body.orderItems body = Some (map lineOf lines) →
  Body.user body = IdOk user →
  (∀ l, l ∈ lines → is_Some (db_products s !! l.2)) →
  is_nan (doubleTotal s lines) = false →
  let oid := (nextId s + length lines)%nat in
  let res := (deleteOrder (IdOk oid) (postOrder now body s).2).1.1 in
  let tasks := (deleteOrder (IdOk oid) (postOrder now body s).2).1.2 in
  let s'' := (deleteOrder (IdOk oid) (postOrder now body s).2).2 in
  Res.status res = 200%nat
  ∧ tasks = map RemoveOrderItem (seq (nextId s) (length lines))
  ∧ db_orders s'' = db_orders s
  ∧ (∀ k l, lines !! k = Some l →
       db_orderItems s'' !! (nextId s + k)%nat
       = Some (OrderItem.mk (num_val l.1) (Some l.2)))
  ∧ (∀ ts, ts ≡ₚ tasks →
       db_orders (settle ts s'') = db_orders s
       ∧ db_orderItems (settle ts s'') = db_orderItems s
       ∧ sameCatalogue s (settle ts s'')
       ∧ nextId (settle ts s'') = S oid).
Proof.
  intros Hwf Hbody Huser Hprods Hnan oid res tasks s''. subst res tasks s''.
  destruct (postOrder_priced now body s lines Hbody Hprods)
    as (s1 & _ & _ & Hitems & Hold & _).
  destruct (postOrder_valid now body s lines user Hbody Huser Hprods Hnan)
    as (s1' & Hpost & Hitems').
  cbv zeta in Hpost. rewrite Hpost in *. cbn [snd] in *. fold oid.
  assert (Heq : ∀ j, db_orderItems s1' !! j
                     = if decide (j ∈ seq (nextId s) (length lines))
                       then db_orderItems s1' !! j else db_orderItems s !! j).
  { intros j. destruct (decide (j ∈ seq (nextId s) (length lines))); [done|].
    clear Hitems Hold.
    destruct (postOrder_after_materialize now body s _ Hbody) as [Hsame _].
    rewrite Hpost in Hsame. cbn [snd db_orderItems] in Hsame. rewrite Hsame.
    destruct (materialize_general (map lineOf lines) s) as (_ & _ & Hold).
    apply Hold. rewrite length_map. intros Hr. apply n, elem_of_seq. lia. }
  clear Hitems Hold s1.
  set (o := Order.mk _ _ _ _ _ _ _ _ _ _ _) in *.
  set (s' := mkStore _ _ _ _ _ _) in *.
  assert (Hlk : db_orders s' !! oid = Some o) by apply lookup_insert_eq.
  assert (Hfresh : db_orders s !! oid = None)
    by (apply idsIssued_fresh_order; [done|subst oid; lia]).
  rewrite (deleteOrder_present _ _ _ Hlk). cbn [fst snd].
  split; [done|]. split; [done|].
  split; [subst s'; simpl; by apply delete_insert_id|].
  split; [exact Hitems'|].
  intros ts Hts. subst o. cbn [Order.orderItems] in Hts.
  rewrite (settle_any_order _ _ _ Hts).
  destruct (settle_frame (map RemoveOrderItem (seq (nextId s) (length lines)))
              (with_orders (delete oid) s')) as (Hp & Hc & Hu & Hn).
  split; [|split; [|split]].
  - rewrite settle_orders. subst s'. simpl. by apply delete_insert_id.
  - apply map_eq. intros j. rewrite settle_orderItems.
    destruct (decide (j ∈ seq (nextId s) (length lines))) as [Hin|Hout].
    + apply elem_of_seq in Hin. symmetry.
      apply idsIssued_fresh_item; [done|lia].
    + subst s'. cbn [with_orders db_orderItems]. rewrite Heq.
      by rewrite decide_False by done.
  - unfold sameCatalogue. rewrite Hp, Hc, Hu, settle_orders. subst s'. simpl.
    split; [|done]. by apply delete_insert_id.
  - by rewrite Hn.
Qed.

Lemma postOrder_then_deleteOrder_witness :
  idsIssued demoStore
  ∧ Res.status (deleteOrder (IdOk 9%nat) (postOrder 2000 demoBody demoStore).2).1.1
    = 200%nat
  ∧ db_orderItems (deleteOrder (IdOk 9%nat) (postOrder 2000 demoBody demoStore).2).2
      !! 7%nat
    = Some (OrderItem.mk 3%float (Some 1%nat))
  ∧ db_orderItems
      (settle [ RemoveOrderItem 8%nat; RemoveOrderItem 7%nat ]
         (deleteOrder (IdOk 9%nat) (postOrder 2000 demoBody demoStore).2).2)
    = db_orderItems demoStore.
Proof.
  destruct (postOrder_then_deleteOrder 2000 demoBody demoStore demoLines 3%nat
              idsIssued_demoStore eq_refl eq_refl demoLines_products eq_refl)
    as (H200 & Htasks & _ & Hitems & Hsettled).
  split; [exact idsIssued_demoStore|]. split; [exact H200|].
  split; [exact (Hitems 0%nat (qty3, 1%nat) eq_refl)|].
  apply (Hsettled [ RemoveOrderItem 8%nat; RemoveOrderItem 7%nat ]).
  rewrite Htasks. apply Permutation_swap.
Defined.

Lemma populateOrderItems_seq s (lines : list (Number * ObjectId)) n :
  (∀ k l, lines !! k = Some l →
     db_orderItems s !! (n + k)%nat
     = Some (OrderItem.mk (num_val l.1) (Some l.2))) →
  populateOrderItems s (seq n (length lines))
  = imap (λ k l, JObj [ ("_id", JOid (n + k)%nat);
                        ("quantity", jsonNumber (num_val l.1));
                        ("product", populateProduct s l.2);
                        ("__v", JNum 0) ]) lines.
Proof.
  unfold populateOrderItems. revert n.
  induction lines as [|l lines IH]; intros n Hitems; [done|].
  cbn [length seq omap list_omap]. change (list_omap ?f ?l) with (omap f l).
  rewrite imap_cons. unfold populateOrderItem at 1.
  pose proof (Hitems 0%nat l eq_refl) as H0. rewrite Nat.add_0_r in H0.
  rewrite H0. cbn [OrderItem.quantity OrderItem.product].
  rewrite (IH (S n)).
  - f_equal.
    + by rewrite Nat.add_0_r.
    + apply imap_ext. intros k x _. simpl.
      by replace (n + S k)%nat with (S (n + k)) by lia.
  - intros k x Hk. replace (S n + k)%nat with (n + S k)%nat by lia.
    by apply Hitems.
Qed.

(** X14: get-by-id of an order just created shows its lines: the expanded
    [orderItems] has one entry per line of the request, in the order of the
    request, each with the id the materializer gave it, the quantity of the
    line, and under [product] the id, the name and the description the
    product has in the catalogue, without its price; [totalPrice] is the
    total the doubles give. *)
Theorem postOrder_then_getOrder (now : Z) (body : Body.t) (s : Store)
    (lines : list (Number * ObjectId)) (user : ObjectId) :
  Body.orderItems body = Some (map lineOf lines) →
  Body.user body = IdOk user →
  (∀ l, l ∈ lines → is_Some (db_products s !! l.2)) →
  is_nan (doubleTotal s lines) = false →
  let oid := (nextId s + length lines)%nat in
  let view := (getOrder (IdOk oid) (postOrder now body s).2).1 in
  ∃ entries,
    Res.status view = 200%nat
    ∧ json_field "orderItems" (Res.data view) = Some (JArr entries)
    ∧ length entries = length lines
    ∧ (∀ k l prod, lines !! k = Some l → db_products s !! l.2 = Some prod →
         ∃ e pfs,
           entries !! k = Some e
           ∧ json_field "_id" e = Some (JOid (nextId s + k)%nat)
           ∧ json_field "quantity" e = Some (jsonNumber (num_val l.1))
           ∧ json_field "product" e = Some (JObj pfs)
           ∧ field "_id" pfs = Some (JOid l.2)
           ∧ field "name" pfs = Some (JStr (Product.name prod))
           ∧ field "description" pfs = Some (JStr (Product.description prod))
           ∧ field "price" pfs = None)
    ∧ json_field "totalPrice" (Res.data view)
      = Some (jsonNumber (doubleTotal s lines)).
Proof.
  intros Hbody Huser Hprods Hnan oid view. subst view.
  destruct (postOrder_valid now body s lines user Hbody Huser Hprods Hnan)
    as (s1 & Hpost & Hitems).
  cbv zeta in Hpost. rewrite Hpost. cbn [snd]. fold oid.
  set (o := Order.mk _ _ _ _ _ _ _ _ _ _ _).
  set (s' := mkStore _ _ _ _ _ _).
  assert (Hlk : db_orders s' !! oid = Some o) by apply lookup_insert_eq.
  rewrite (getOrder_present _ _ _ Hlk).
  eexists. split; [done|]. split; [reflexivity|].
  subst o. cbn [Order.orderItems].
  rewrite (populateOrderItems_seq s' lines (nextId s)) by (subst s'; exact Hitems).
  split; [apply length_imap|]. split; [|done].
  intros k l prod Hk Hprod. rewrite list_lookup_imap, Hk. cbn [fmap option_fmap option_map].
  unfold populateProduct. subst s'. cbn [db_products]. rewrite Hprod.
  eexists _, _. split; [reflexivity|]. repeat split; reflexivity.
Qed.

Lemma postOrder_then_getOrder_witness :
  Body.orderItems demoBody = Some (map lineOf demoLines)
  ∧ json_field "orderItems"
      (Res.data (getOrder (IdOk 9%nat) (postOrder 2000 demoBody demoStore).2).1)
    = Some (JArr
        [ JObj [ ("_id", JOid 7%nat); ("quantity", JDouble 3);
                 ("product",
                  JObj [ ("_id", JOid 1%nat); ("name", JStr "Product 1");
                         ("description", JStr "Product 1 Description");
                         ("category",
                          JObj [ ("_id", JOid 0%nat);
                                 ("name", JStr "Category 10") ]) ]);
                 ("__v", JNum 0) ];
          JObj [ ("_id", JOid 8%nat); ("quantity", JDouble 2);
                 ("product",
                  JObj [ ("_id", JOid 2%nat); ("name", JStr "Product 2");
                         ("description", JStr "Product 2 Description");
                         ("category",
                          JObj [ ("_id", JOid 0%nat);
                                 ("name", JStr "Category 10") ]) ]);
                 ("__v", JNum 0) ] ])
  ∧ json_field "totalPrice"
      (Res.data (getOrder (IdOk 9%nat) (postOrder 2000 demoBody demoStore).2).1)
    = Some (JDouble 40).
Proof.
  destruct (postOrder_then_getOrder 2000 demoBody demoStore demoLines 3%nat
              eq_refl eq_refl demoLines_products eq_refl)
    as (entries & _ & _ & _ & _ & Htot).
  split; [reflexivity|]. split; [reflexivity|]. exact Htot.
Defined.
(** ** The gate: what the exclusion list lets through, and what is answered
    to the requests it stops *)

Lemma prefix_append lit post : String.prefix lit (lit +:+ post) = true.
Proof.
  induction lit as [|a lit IH]; simpl.
  - by destruct post.
  - by destruct (Ascii.ascii_dec a a).
Qed.

Lemma contains_unfold lit s :
  contains lit s
  = String.prefix lit s
    || match s with
       | EmptyString => false
       | String _ s' => contains lit s'
       end.
Proof. by destruct s. Qed.

Lemma contains_append lit pre post : contains lit (pre +:+ lit +:+ post) = true.
Proof.
  induction pre as [|c pre IH].
  - change ("" +:+ lit +:+ post) with (lit +:+ post).
    rewrite contains_unfold. by rewrite prefix_append.
  - change (String c pre +:+ lit +:+ post) with (String c (pre +:+ lit +:+ post)).
    rewrite contains_unfold, IH. apply orb_true_r.
Qed.

(** X16: the patterns of the exclusion list are not anchored: a GET or
    OPTIONS request passes the gate without any credential as soon as its
    pathname contains /api/v1/products, /api/v1/categories or /public/uploads
    anywhere, whatever comes before and after. *)
Theorem authJwt_unanchored (api : string) (m : Method) (lit pre post : string)
    (c : Credential) :
  lit ∈ [ "/api/v1/products"; "/api/v1/categories"; "/public/uploads" ] →
  getOrOptions m = true →
  authJwt api m (pre +:+ lit +:+ post) c = Next.
Proof.
  intros Hlit Hm. unfold authJwt, unlessPath. rewrite Hm, !andb_true_r.
  apply elem_of_cons in Hlit as [->|Hlit];
    [by rewrite contains_append, !orb_true_r|].
  apply elem_of_cons in Hlit as [->|Hlit];
    [by rewrite contains_append, !orb_true_r|].
  apply elem_of_cons in Hlit as [->|Hlit];
    [by rewrite contains_append, !orb_true_r|].
  by apply elem_of_nil in Hlit.
Qed.

Lemma authJwt_unanchored_witness :
  "/api/v1/products" ∈ [ "/api/v1/products"; "/api/v1/categories"; "/public/uploads" ]
  ∧ getOrOptions GET = true
  ∧ authJwt "/api/v1" GET "/anything/api/v1/products/get/count" NoCredential = Next.
Proof.
  assert (Hl : "/api/v1/products"
               ∈ [ "/api/v1/products"; "/api/v1/categories"; "/public/uploads" ])
    by apply list_elem_of_here.
  split; [exact Hl|]. split; [reflexivity|].
  exact (authJwt_unanchored "/api/v1" GET "/api/v1/products" "/anything"
           "/get/count" NoCredential Hl eq_refl).
Defined.

(** X17: for the methods that write (POST, PUT, DELETE) the exclusion list
    excludes two pathnames only, login and register under [API_VERSION],
    compared as whole strings; these two are excluded for every method. *)
Theorem unlessPath_writes (api : string) (m : Method) (pathname : string) :
  getOrOptions m = false →
  (unlessPath api m pathname = true
   ↔ pathname = api +:+ "/users/login" ∨ pathname = api +:+ "/users/register")
  ∧ (∀ m', unlessPath api m' (api +:+ "/users/login") = true)
  ∧ (∀ m', unlessPath api m' (api +:+ "/users/register") = true).
Proof.
  intros Hm. split; [|split].
  - unfold unlessPath. rewrite Hm, !andb_false_r, !orb_false_r.
    rewrite orb_true_iff, !String.eqb_eq. done.
  - intros m'. unfold unlessPath. by rewrite String.eqb_refl.
  - intros m'. unfold unlessPath. by rewrite String.eqb_refl, orb_true_r.
Qed.

Lemma unlessPath_writes_witness :
  getOrOptions POST = false
  ∧ unlessPath "/api/v1" POST "/api/v1/users/login" = true
  ∧ (unlessPath "/api/v1" POST "/api/v1/orders" = true
     ↔ "/api/v1/orders" = "/api/v1" +:+ "/users/login"
       ∨ "/api/v1/orders" = "/api/v1" +:+ "/users/register").
Proof.
  destruct (unlessPath_writes "/api/v1" POST "/api/v1/orders" eq_refl)
    as (Hiff & Hlogin & _).
  split; [reflexivity|]. split; [exact (Hlogin POST)|exact Hiff].
Defined.

(** X18: what the application answers before a route runs.  [cors()] ends
    every OPTIONS request with an empty 204.  For the other methods: a body
    that [express.json()] rejects goes to the error handler, which answers
    500 with the error object (a SyntaxError for malformed JSON); on a route
    that is not excluded, a request without a token, with a token that does
    not verify, or with a verified token whose admin flag is falsy is
    answered 401 'User not Authorized' by the error handler.  In all these
    cases the order route is not run, no task is started and the store is
    untouched.  A verified token with the flag set gets the answer and the
    effect of the route. *)
Theorem app_gate (api : string) (m : Method) (pathname : string)
    (bodyError : option string) (c : Credential) (r : Request) (s : Store) :
  let admin := match c with
               | Verified payload => truthy_opt (field "userIsAdmin" payload)
               | _ => false
               end in
  (m = OPTIONS → app api m pathname bodyError c r s = ((Preflight 204, []), s))
  ∧ (m ≠ OPTIONS → bodyError = Some "SyntaxError" →
     app api m pathname bodyError c r s
     = ((Refused 500 (ErrorObject "SyntaxError"), []), s))
  ∧ (m ≠ OPTIONS → bodyError = None → unlessPath api m pathname = false →
     admin = false →
     app api m pathname bodyError c r s
     = ((Refused 401 (ErrorText "User not Authorized"), []), s))
  ∧ (m ≠ OPTIONS → bodyError = None → unlessPath api m pathname = false →
     admin = true →
     app api m pathname bodyError c r s
     = ((Routed (route r s).1.1, (route r s).1.2), (route r s).2)).
Proof.
  intros admin. subst admin. split; [by intros ->|]. split; [|split].
  - intros Hm ->. by destruct m.
  - intros Hm -> Hex Hadm.
    assert (Hgate : ∃ code, authJwt api m pathname c = UnauthorizedError code).
    { unfold authJwt. rewrite Hex. destruct c as [| |payload]; [by eexists..|].
      unfold isRevoked. rewrite Hadm. by eexists. }
    destruct Hgate as [code Hgate]. unfold app. rewrite Hgate. by destruct m.
  - intros Hm -> Hex Hadm.
    assert (Hgate : authJwt api m pathname c = Next).
    { unfold authJwt. rewrite Hex. destruct c as [| |payload]; [done..|].
      unfold isRevoked. by rewrite Hadm. }
    unfold app. rewrite Hgate. by destruct m.
Qed.

Lemma app_gate_witness :
  unlessPath "/api/v1" DELETE "/api/v1/orders/6" = false
  ∧ app "/api/v1" DELETE "/api/v1/orders/6" None
      (Verified (loginPayload 3 (User.mk "user 1" false)))
      (DeleteOrder (IdOk 6%nat)) demoStore
    = ((Refused 401 (ErrorText "User not Authorized"), []), demoStore)
  ∧ app "/api/v1" OPTIONS "/api/v1/orders/6" None NoCredential
      (DeleteOrder (IdOk 6%nat)) demoStore
    = ((Preflight 204, []), demoStore).
Proof.
  assert (Hex : unlessPath "/api/v1" DELETE "/api/v1/orders/6" = false)
    by reflexivity.
  destruct (app_gate "/api/v1" DELETE "/api/v1/orders/6" None
              (Verified (loginPayload 3 (User.mk "user 1" false)))
              (DeleteOrder (IdOk 6%nat)) demoStore) as (_ & _ & Hno & _).
  destruct (app_gate "/api/v1" OPTIONS "/api/v1/orders/6" None NoCredential
              (DeleteOrder (IdOk 6%nat)) demoStore) as (Hopt & _).
  split; [exact Hex|]. split.
  - apply Hno; [discriminate|reflexivity|exact Hex|reflexivity].
  - apply Hopt. reflexivity.
Defined.

(** X19: the token the login route signs for a user carries the user's
    [isAdmin] as [userIsAdmin]; on a route that is not excluded the gate lets
    such a token through exactly when the user is an admin. *)
Theorem login_token_gate (api : string) (m : Method) (pathname : string)
    (userId : ObjectId) (u : User.t) :
  unlessPath api m pathname = false →
  (authJwt api m pathname (Verified (loginPayload userId u)) = Next
   ↔ User.isAdmin u = true)
  ∧ (User.isAdmin u = false →
     authJwt api m pathname (Verified (loginPayload userId u))
     = UnauthorizedError "revoked_token").
Proof.
  intros Hex. unfold authJwt. rewrite Hex, isRevoked_login.
  destruct (User.isAdmin u); simpl; split; try done; split; done.
Qed.

Lemma login_token_gate_witness :
  unlessPath "/api/v1" GET "/api/v1/orders" = false
  ∧ authJwt "/api/v1" GET "/api/v1/orders"
      (Verified (loginPayload 3 (User.mk "user 1" false)))
    = UnauthorizedError "revoked_token".
Proof.
  assert (Hex : unlessPath "/api/v1" GET "/api/v1/orders" = false) by reflexivity.
  destruct (login_token_gate "/api/v1" GET "/api/v1/orders" 3
              (User.mk "user 1" false) Hex) as [_ Hrev].
  split; [exact Hex|]. apply Hrev. reflexivity.
Defined.
